(** * Grafana: channel-rule pipeline, GeoJSON summary, dashboard-list
      migration and query option group

    Shallow embeddings of four pieces of the repository, each in a
    module of its own, followed by their properties.

    - [pipeline]: the rule builder of Grafana Live's pipeline: the
      tagged configuration structs, the four recursive extractors
      ([extractConverter], [extractProcessor], [extractConditionChecker],
      [extractOutputter]), the backend lookup [getRemoteWriteConfig] and
      the loader [ListChannelRules].
    - [geojson]: the entity summary builder of package [geojson].
    - [dashlist]: the migration handler of the dashboard list panel.
    - [QueryOptionGroup]: the query option group component.

    Conventions of the embeddings of Go code:
    - a Go pointer [*T] is [option T] ([None] is [nil]);
    - a Go interface value is [option] of its implementations;
    - a slice is a [list] (the nil slice is [[]]);
    - an [error] is its message, and a returned pair [(v, err)] is kept
      as a pair;
    - a nil pointer dereference is the outcome [Panic].
    Of TypeScript code: a promise is what it settles to, and the
    requests sent on the way are kept in a list. *)

From Stdlib Require Import Strings.String Lists.List Bool.Bool Strings.Byte
  ZArith.ZArith.
Import ListNotations.
Local Open Scope string_scope.
Set Warnings "-register-all".

(** * GeoJSON entity summary (package [geojson]) *)

Module geojson.

(** The message carried by a Go [error]. *)
Definition error : Type := string.

(** A value held in an [interface{}]: what [encoding/json] decodes a
    document to, and the [int] that the builder stores as a count.  A
    [map[string]interface{}] is kept as its list of entries, read with
    [map_get] and written with [map_set]. *)
Inductive any {float64 : Type} : Type :=
| any_nil
| any_bool (b : bool)
| any_float64 (x : float64)
| any_string (s : string)
| any_slice (l : list any)
| any_map (m : list (string * any))
| any_int (n : Z).
Arguments any : clear implicits.

(** What the builder takes from the rest of the repository and from the
    standard library: the number type of decoded JSON, the decoder and
    the encoder of [encoding/json] on maps, [store.GuessNameFromUID] and
    the constant [models.StandardKindGeoJSON]. *)
Class Environment : Type := {
  float64 : Type;
  json_Unmarshal : list byte -> list (string * any float64) * option error;
  json_Marshal : list (string * any float64) -> list byte * option error;
  GuessNameFromUID : string -> string;
  StandardKindGeoJSON : string
}.

Section Builder.

Context {environment : Environment}.

Definition gomap : Type := list (string * any float64).

(** [m[k]]: the entry of key [k], if any. *)
Fixpoint map_get (m : gomap) (k : string) : option (any float64) :=
  match m with
  | [] => None
  | (k', v) :: rest => if k' =? k then Some v else map_get rest k
  end.

(** [m[k] = v]. *)
Fixpoint map_set (m : gomap) (k : string) (v : any float64) : gomap :=
  match m with
  | [] => [(k, v)]
  | (k', v') :: rest =>
      if k' =? k then (k, v) :: rest else (k', v') :: map_set rest k v
  end.

(** [x.(string)] with the comma-ok form, on the result of a map index
    (a missing key indexes to the nil interface). *)
Definition assert_string (x : option (any float64)) : string * bool :=
  match x with
  | Some (any_string s) => (s, true)
  | _ => ("", false)
  end.

(** [x.([]interface{})] with the comma-ok form. *)
Definition assert_slice (x : option (any float64))
  : list (any float64) * bool :=
  match x with
  | Some (any_slice l) => (l, true)
  | _ => ([], false)
  end.

(** The fields of [models.EntitySummary] that the builder sets. *)
Record EntitySummary : Type := {
  Kind : string;
  Name : string;
  UID : string;
  Fields : gomap
}.

Definition set_Fields (summary : EntitySummary) (fields : gomap)
  : EntitySummary :=
  {| Kind := Kind summary;
     Name := Name summary;
     UID := UID summary;
     Fields := fields |}.

(** The function that [GetEntitySummaryBuilder] returns (its context
    argument is unused): the summary pointer, the body and the error. *)
Definition EntitySummaryBuilder (uid : string) (body : list byte)
  : option EntitySummary * list byte * option error :=
  let (geojson, err) := json_Unmarshal body in
  match err with
  | Some e => (None, [], Some e)
  | None =>
      let (ftype, ok) := assert_string (map_get geojson "type") in
      if negb ok then (None, [], Some "missing type")
      else
        let (body, err) := json_Marshal geojson in
        match err with
        | Some e => (None, [], Some e)
        | None =>
            let summary :=
              {| Kind := StandardKindGeoJSON;
                 Name := GuessNameFromUID uid;
                 UID := uid;
                 Fields := [("type", any_string ftype)] |} in
            let summary :=
              if ftype =? "FeatureCollection" then
                let (features, ok) :=
                  assert_slice (map_get geojson "features") in
                if ok then
                  set_Fields summary
                    (map_set (Fields summary) "count"
                       (any_int (Z.of_nat (length features))))
                else summary
              else summary in
            (Some summary, body, None)
        end
  end.

End Builder.

(** A decoded feature collection of three features, an encoder that
    writes two bytes, and the UID taken as the name. *)
Module Example.

Definition feature_collection : list (string * any Z) :=
  [("type", any_string "FeatureCollection");
   ("features", any_slice [any_map []; any_map []; any_map []])].

Definition sample_environment : Environment := {|
  float64 := Z;
  json_Unmarshal := fun _ => (feature_collection, None);
  json_Marshal := fun _ => ([x7b; x7d], None);
  GuessNameFromUID := fun uid => uid;
  StandardKindGeoJSON := "geojson"
|}.

#[local] Existing Instance sample_environment.

Definition feature_collection_summary : EntitySummary :=
  {| Kind := "geojson";
     Name := "places";
     UID := "places";
     Fields := [("type", any_string "FeatureCollection");
                ("count", any_int 3)] |}.

End Example.

End geojson.

(** * Dashboard list panel migration ([dashlist/migrations.ts]) *)

Module dashlist.

(** What a property of a saved panel can hold at run time: nothing
    ([undefined], also the state after [delete]), the JSON [null], or a
    value.  The two empty states are told apart because the handler
    does: [??] falls through on both, [!== undefined] only on the
    first. *)
Inductive js (A : Type) : Type :=
| undefined
| null
| value (a : A).
Arguments undefined {A}.
Arguments null {A}.
Arguments value {A} a.

(** A settled promise. *)
Inductive settled (A E : Type) : Type :=
| Resolved (a : A)
| Rejected (reason : E).
Arguments Resolved {A E} a.
Arguments Rejected {A E} reason.

(** What the handler takes from outside the file: the JS number type
    (only copied), the fields of [Options] that the handler does not
    name (carried along by the spread), the folder response with its
    [uid], the rejection reasons of the backend, the test
    [parseFloat(v) < 6.3] on a version string, and what the backend
    answers to the request [/api/folders/id/${folderID}], where
    [folderID] is a number or, when a saved [null] gets that far,
    [null]. *)
Class Environment : Type := {
  number : Type;
  OtherOptions : Type;
  FolderDTO : Type;
  FolderDTO_uid : FolderDTO -> string;
  reason : Type;
  parseFloat_below_6_3 : string -> bool;
  backend_get_folder_by_id : js number -> settled FolderDTO reason
}.

Section Migration.

Context {environment : Environment}.

Record Options : Type := {
  showStarred : js bool;
  showRecentlyViewed : js bool;
  showSearch : js bool;
  showHeadings : js bool;
  maxItems : js number;
  query : js string;
  folderId : js number;
  folderUID : js string;
  tags : js (list string);
  other_options : OtherOptions
}.

(** [PanelModel<Options> & AngularModel], as far as the handler reads
    and writes it. *)
Record Panel : Type := {
  options : Options;
  pluginVersion : js string;
  panel_starred : js bool;
  panel_recent : js bool;
  panel_search : js bool;
  panel_headings : js bool;
  panel_limit : js number;
  panel_query : js string;
  panel_folderId : js number;
  panel_tags : js (list string)
}.

(** [a ?? b]: [b] when [a] is [null] or [undefined]. *)
Definition nullish {A : Type} (a b : js A) : js A :=
  match a with
  | value x => value x
  | undefined | null => b
  end.

(** [s || '6.1'] on a string property: [undefined], [null] and the
    empty string are falsy. *)
Definition or_default (s : js string) (default : string) : string :=
  match s with
  | undefined | null | value EmptyString => default
  | value v => v
  end.

(** [getFolderByID]: the answer of the backend to the request for
    [folderID]. *)
Definition getFolderByID (folderID : js number) : settled FolderDTO reason :=
  backend_get_folder_by_id folderID.

(** [oldProps.forEach((prop) => delete panel[prop])]: the seven listed
    properties go, [tags] is not in the list. *)
Definition delete_oldProps (panel : Panel) : Panel :=
  {| options := options panel;
     pluginVersion := pluginVersion panel;
     panel_starred := undefined;
     panel_recent := undefined;
     panel_search := undefined;
     panel_headings := undefined;
     panel_limit := undefined;
     panel_query := undefined;
     panel_folderId := undefined;
     panel_tags := panel_tags panel |}.

(** One call of the handler: the panel after the call, the folder
    requests that the call sent to the backend, in order, and what the
    returned promise settles to. *)
Record Run : Type := {
  run_panel : Panel;
  run_requests : list (js number);
  run_promise : settled Options reason
}.

(** [dashlistMigrationHandler]. *)
Definition dashlistMigrationHandler (panel : Panel) : Run :=
  let newOptions :=
    {| showStarred := nullish (showStarred (options panel)) (panel_starred panel);
       showRecentlyViewed :=
         nullish (showRecentlyViewed (options panel)) (panel_recent panel);
       showSearch := nullish (showSearch (options panel)) (panel_search panel);
       showHeadings :=
         nullish (showHeadings (options panel)) (panel_headings panel);
       maxItems := nullish (maxItems (options panel)) (panel_limit panel);
       query := nullish (query (options panel)) (panel_query panel);
       folderId := nullish (folderId (options panel)) (panel_folderId panel);
       folderUID := folderUID (options panel);
       tags := nullish (tags (options panel)) (panel_tags panel);
       other_options := other_options (options panel) |} in
  let panel :=
    if parseFloat_below_6_3 (or_default (pluginVersion panel) "6.1")
    then delete_oldProps panel
    else panel in
  match folderId newOptions with
  | undefined =>
      {| run_panel := panel;
         run_requests := [];
         run_promise := Resolved newOptions |}
  | id =>
      match getFolderByID id with
      | Rejected r =>
          {| run_panel := panel;
             run_requests := [id];
             run_promise := Rejected r |}
      | Resolved folderResp =>
          {| run_panel := panel;
             run_requests := [id];
             run_promise :=
               Resolved
                 {| showStarred := showStarred newOptions;
                    showRecentlyViewed := showRecentlyViewed newOptions;
                    showSearch := showSearch newOptions;
                    showHeadings := showHeadings newOptions;
                    maxItems := maxItems newOptions;
                    query := query newOptions;
                    folderId := undefined;
                    folderUID := value (FolderDTO_uid folderResp);
                    tags := tags newOptions;
                    other_options := other_options newOptions |} |}
      end
  end.

(** What the caller of the handler does with a migration that resolved
    to [migrated]: it stores the migrated options in the panel.  The
    caller is outside the file; this is used to say what a second
    migration does. *)
Definition with_options (panel : Panel) (migrated : Options) : Panel :=
  {| options := migrated;
     pluginVersion := pluginVersion panel;
     panel_starred := panel_starred panel;
     panel_recent := panel_recent panel;
     panel_search := panel_search panel;
     panel_headings := panel_headings panel;
     panel_limit := panel_limit panel;
     panel_query := panel_query panel;
     panel_folderId := panel_folderId panel;
     panel_tags := panel_tags panel |}.

(** The folder id that the migration resolves: the one of the options
    unless it is [null] or [undefined], else the legacy one. *)
Definition merged_folderId (panel : Panel) : js number :=
  nullish (folderId (options panel)) (panel_folderId panel).

(** The property holds a value: it is neither [undefined] nor [null]. *)
Definition defined {A : Type} (x : js A) : Prop :=
  exists a, x = value a.

End Migration.

(** A backend that knows the folder 7 and nothing else, versions 6.0 and
    6.1 as the ones below 6.3, and panels: one saved by the Angular
    panel, with legacy properties only, one with every option set, and
    one whose legacy folder id was saved as [null]. *)
Module Example.

Definition sample_environment : Environment := {|
  number := nat;
  OtherOptions := unit;
  FolderDTO := string;
  FolderDTO_uid := fun folder => folder;
  reason := string;
  parseFloat_below_6_3 := fun v => (v =? "6.0") || (v =? "6.1");
  backend_get_folder_by_id :=
    fun id =>
      match id with
      | value 7 => Resolved "general"
      | _ => Rejected "not found"
      end
|}.

#[local] Existing Instance sample_environment.

Definition no_options : Options :=
  {| showStarred := undefined;
     showRecentlyViewed := undefined;
     showSearch := undefined;
     showHeadings := undefined;
     maxItems := undefined;
     query := undefined;
     folderId := undefined;
     folderUID := undefined;
     tags := undefined;
     other_options := tt |}.

Definition angular_panel : Panel :=
  {| options := no_options;
     pluginVersion := undefined;
     panel_starred := value true;
     panel_recent := value false;
     panel_search := value true;
     panel_headings := value true;
     panel_limit := value 10;
     panel_query := value "cpu";
     panel_folderId := value 7;
     panel_tags := value ["prod"] |}.

Definition angular_panel_migrated : Options :=
  {| showStarred := value true;
     showRecentlyViewed := value false;
     showSearch := value true;
     showHeadings := value true;
     maxItems := value 10;
     query := value "cpu";
     folderId := undefined;
     folderUID := value "general";
     tags := value ["prod"];
     other_options := tt |}.

Definition full_options : Options :=
  {| showStarred := value false;
     showRecentlyViewed := value true;
     showSearch := value false;
     showHeadings := value false;
     maxItems := value 5;
     query := value "";
     folderId := value 7;
     folderUID := undefined;
     tags := value [];
     other_options := tt |}.

Definition mixed_panel : Panel :=
  {| options := full_options;
     pluginVersion := value "9.0";
     panel_starred := value true;
     panel_recent := value false;
     panel_search := value true;
     panel_headings := value true;
     panel_limit := value 10;
     panel_query := value "cpu";
     panel_folderId := value 3;
     panel_tags := value ["prod"] |}.

Definition clean_panel : Panel :=
  {| options := full_options;
     pluginVersion := undefined;
     panel_starred := undefined;
     panel_recent := undefined;
     panel_search := undefined;
     panel_headings := undefined;
     panel_limit := undefined;
     panel_query := undefined;
     panel_folderId := undefined;
     panel_tags := undefined |}.

(** A panel saved with ["folderId": null] beside its legacy
    properties, and no folder id in its options. *)
Definition null_folder_panel : Panel :=
  {| options := no_options;
     pluginVersion := undefined;
     panel_starred := value true;
     panel_recent := undefined;
     panel_search := undefined;
     panel_headings := undefined;
     panel_limit := undefined;
     panel_query := undefined;
     panel_folderId := null;
     panel_tags := undefined |}.

End Example.

End dashlist.

(** * Query option group ([QueryOptionGroup.tsx]) *)

Module QueryOptionGroup.

(** [FormattedValue] of [@grafana/data], as far as it is read. *)
Record FormattedValue : Type := {
  text : string;
  suffix : option string
}.

(** What the component takes from outside the file: the JS number type
    with its truthiness (false on [0] and [NaN]) and the formatter
    [getValueFormat('bytes')] applied with one decimal. *)
Class Environment : Type := {
  number : Type;
  truthy_number : number -> bool;
  format_bytes : number -> FormattedValue
}.

Section Component.

Context {environment : Environment}.

(** [QueryStats], of which the component reads [bytes]. *)
Record QueryStats : Type := {
  bytes : number
}.

(** The prop [queryStats?: QueryStats | string | null]. *)
Inductive queryStats_prop : Type :=
| stats_undefined
| stats_null
| stats_string (s : string)
| stats_object (stats : QueryStats).

(** Truthiness of the prop: an object is truthy, a string unless empty. *)
Definition truthy (queryStats : queryStats_prop) : bool :=
  match queryStats with
  | stats_undefined | stats_null => false
  | stats_string s => negb (s =? "")
  | stats_object _ => true
  end.

(** [text + suffix], where a missing suffix prints as [undefined]. *)
Definition text_plus_suffix (v : FormattedValue) : string :=
  text v ++ match suffix v with
            | Some s => s
            | None => "undefined"
            end.

Definition convertUnits (queryStats : queryStats_prop) : string :=
  match queryStats with
  | stats_object stats =>
      if negb (truthy_number (bytes stats)) then ""
      else text_plus_suffix (format_bytes (bytes stats))
  | _ => ""
  end.

Definition generateQueryStats (queryStats : queryStats_prop) : string :=
  match queryStats with
  | stats_string s => s
  | _ =>
      "This query will process approximately " ++ convertUnits queryStats
      ++ "."
  end.

(** What one render shows, given the state [isOpen] of the toggle: the
    title, the collapsed summary (the spans of [collapsedInfo], present
    when the group is closed) and the text of the stats paragraph
    (present when [queryStats] is truthy). *)
Record View : Type := {
  view_title : string;
  view_description : option (list string);
  view_open : bool;
  view_stats : option string
}.

Definition render (title : string) (collapsedInfo : list string)
  (queryStats : queryStats_prop) (isOpen : bool) : View :=
  {| view_title := title;
     view_description := if negb isOpen then Some collapsedInfo else None;
     view_open := isOpen;
     view_stats :=
       if truthy queryStats then Some (generateQueryStats queryStats)
       else None |}.

End Component.

End QueryOptionGroup.

(** * Channel-rule pipeline construction (package [pipeline]) *)

Module pipeline.

(** The message carried by a Go [error]. *)
Definition error : Type := string.

(** Result of running code that may hit a run-time panic. *)
Inductive outcome (A : Type) : Type :=
| Return (a : A)
| Panic.
Arguments Return {A} a.
Arguments Panic {A}.

(** Leaf configuration structs and handles that package [pipeline]
    declares in files other than the builder's.  The builder only copies
    them around, so they stay abstract. *)
Class Collaborators : Type := {
  AutoJsonConverterConfig : Type;
  ExactJsonConverterConfig : Type;
  AutoInfluxConverterConfig : Type;
  JsonFrameConverterConfig : Type;
  DropFieldsProcessorConfig : Type;
  KeepFieldsProcessorConfig : Type;
  RedirectOutputConfig : Type;
  ThresholdOutputConfig : Type;
  ChangeLogOutputConfig : Type;
  RemoteWriteConfig : Type;
  ConditionType : Type;
  NumberCompareOp : Type;
  float64 : Type;
  (** [*centrifuge.Node], [*managedstream.Runner], [*FrameStorage] *)
  centrifuge_Node : Type;
  managedstream_Runner : Type;
  FrameStorage : Type
}.

Section Builder.

Context {collaborators : Collaborators}.

(** ** Configuration structs *)

Record ConverterConfig : Type := {
  Converter_Type : string;
  Converter_AutoJsonConverterConfig : option AutoJsonConverterConfig;
  Converter_ExactJsonConverterConfig : option ExactJsonConverterConfig;
  Converter_AutoInfluxConverterConfig : option AutoInfluxConverterConfig;
  Converter_JsonFrameConverterConfig : option JsonFrameConverterConfig
}.

Inductive ProcessorConfig : Type := Build_ProcessorConfig {
  Processor_Type : string;
  Processor_DropFieldsProcessorConfig : option DropFieldsProcessorConfig;
  Processor_KeepFieldsProcessorConfig : option KeepFieldsProcessorConfig;
  Processor_MultipleProcessorConfig : option MultipleProcessorConfig
}
with MultipleProcessorConfig : Type := Build_MultipleProcessorConfig {
  Processors : list ProcessorConfig
}.

Record NumberCompareConditionConfig : Type := {
  FieldName : string;
  Op : NumberCompareOp;
  Value : float64
}.

Inductive ConditionCheckerConfig : Type := Build_ConditionCheckerConfig {
  Condition_Type : string;
  Condition_MultipleConditionCheckerConfig : option MultipleConditionCheckerConfig;
  Condition_NumberCompareConditionConfig : option NumberCompareConditionConfig
}
with MultipleConditionCheckerConfig : Type := Build_MultipleConditionCheckerConfig {
  MultipleCondition_Type : ConditionType;
  Conditions : list ConditionCheckerConfig
}.

Record ManagedStreamOutputConfig : Type := {}.

Record RemoteWriteOutputConfig : Type := {
  RemoteWriteOutput_UID : string
}.

Inductive OutputterConfig : Type := Build_OutputterConfig {
  Outputter_Type : string;
  Outputter_ManagedStreamConfig : option ManagedStreamOutputConfig;
  Outputter_MultipleOutputterConfig : option MultipleOutputterConfig;
  Outputter_RedirectOutputConfig : option RedirectOutputConfig;
  Outputter_ConditionalOutputConfig : option ConditionalOutputConfig;
  Outputter_ThresholdOutputConfig : option ThresholdOutputConfig;
  Outputter_RemoteWriteOutputConfig : option RemoteWriteOutputConfig;
  Outputter_ChangeLogOutputConfig : option ChangeLogOutputConfig
}
with MultipleOutputterConfig : Type := Build_MultipleOutputterConfig {
  Outputters : list OutputterConfig
}
with ConditionalOutputConfig : Type := Build_ConditionalOutputConfig {
  Conditional_Condition : option ConditionCheckerConfig;
  Conditional_Outputter : option OutputterConfig
}.

Record ChannelRuleSettings : Type := {
  Settings_Converter : option ConverterConfig;
  Settings_Processor : option ProcessorConfig;
  Settings_Outputter : option OutputterConfig
}.

Record ChannelRule : Type := {
  ChannelRule_Pattern : string;
  Settings : ChannelRuleSettings
}.

Record RemoteWriteBackend : Type := {
  Backend_UID : string;
  Backend_Settings : option RemoteWriteConfig
}.

Record ChannelRules : Type := {
  Rules : list ChannelRule;
  RemoteWriteBackends : list RemoteWriteBackend
}.

(** [FileStorage] can load channel rules from a file on disk. *)
Record FileStorage : Type := {
  FileStorage_Node : centrifuge_Node;
  FileStorage_ManagedStream : managedstream_Runner;
  FileStorage_FrameStorage : FrameStorage;
  remoteWriteBackends : list RemoteWriteBackend
}.

(** ** Built stages

    The constructors [New...] live in sibling files of the package; each
    returns a pointer to a fresh struct.  A built stage is kept as the
    constructor applied to the arguments the builder passes, so that two
    builds agree exactly when the builder made the same calls.  A stage
    held in an interface variable is [option] of these ([None] is the nil
    interface). *)

Inductive Converter : Type :=
| NewAutoJsonConverter (c : AutoJsonConverterConfig)
| NewExactJsonConverter (c : ExactJsonConverterConfig)
| NewJsonFrameConverter (c : JsonFrameConverterConfig)
| NewAutoInfluxConverter (c : AutoInfluxConverterConfig).

Inductive Processor : Type :=
| NewDropFieldsProcessor (c : DropFieldsProcessorConfig)
| NewKeepFieldsProcessor (c : KeepFieldsProcessorConfig)
| NewMultipleProcessor (processors : list (option Processor)).

Inductive ConditionChecker : Type :=
| NewNumberCompareCondition (fieldName : string) (op : NumberCompareOp)
    (value : float64)
| NewMultipleConditionChecker (t : ConditionType)
    (conditions : list (option ConditionChecker)).

Inductive Outputter : Type :=
| NewRedirectOutput (c : RedirectOutputConfig)
| NewMultipleOutputter (outputters : list (option Outputter))
| NewManagedStreamOutput (managedStream : managedstream_Runner)
| NewLocalSubscribersOutput (node : centrifuge_Node)
| NewConditionalOutput (condition : option ConditionChecker)
    (outputter : option Outputter)
| NewThresholdOutput (frameStorage : FrameStorage) (c : ThresholdOutputConfig)
| NewRemoteWriteOutput (c : RemoteWriteConfig)
| NewChangeLogOutput (frameStorage : FrameStorage) (c : ChangeLogOutputConfig).

(** The fields of [LiveChannelRule] that the loader fills in. *)
Record LiveChannelRule : Type := {
  Pattern : string;
  LiveChannelRule_Converter : option Converter;
  LiveChannelRule_Processor : option Processor;
  LiveChannelRule_Outputter : option Outputter
}.

(** ** The [for ... range] loops of the [multiple] variants

    Each loop walks the child configurations in slice order, calls the
    extractor on a copy of the child, returns [nil, err] from the
    enclosing function at the first error, and otherwise appends the
    built child; after the loop the enclosing function returns the
    composite made of the collected children. *)

Section Range.

Variables C S : Type.

Section Pure.

Variable extract : C -> option S * option error.
Variable New : list (option S) -> S.

Fixpoint range_extract (confs : list C) (built : list (option S))
  : option S * option error :=
  match confs with
  | [] => (Some (New built), None)
  | out :: rest =>
      let (stage, err) := extract out in
      match err with
      | Some e => (None, Some e)
      | None => range_extract rest (built ++ [stage])%list
      end
  end.

End Pure.

Section Panicking.

Variable extract : C -> outcome (option S * option error).
Variable New : list (option S) -> S.

Fixpoint range_extract_outcome (confs : list C) (built : list (option S))
  : outcome (option S * option error) :=
  match confs with
  | [] => Return (Some (New built), None)
  | out :: rest =>
      match extract out with
      | Panic => Panic
      | Return (stage, err) =>
          match err with
          | Some e => Return (None, Some e)
          | None => range_extract_outcome rest (built ++ [stage])%list
          end
      end
  end.

End Panicking.

End Range.

(** ** The extractors *)

Definition extractConverter (f : FileStorage) (config : option ConverterConfig)
  : option Converter * option error :=
  match config with
  | None => (None, None)
  | Some config =>
      let missingConfiguration :=
        "missing configuration for " ++ Converter_Type config in
      if Converter_Type config =? "jsonAuto" then
        match Converter_AutoJsonConverterConfig config with
        | None => (None, Some missingConfiguration)
        | Some c => (Some (NewAutoJsonConverter c), None)
        end
      else if Converter_Type config =? "jsonExact" then
        match Converter_ExactJsonConverterConfig config with
        | None => (None, Some missingConfiguration)
        | Some c => (Some (NewExactJsonConverter c), None)
        end
      else if Converter_Type config =? "jsonFrame" then
        match Converter_JsonFrameConverterConfig config with
        | None => (None, Some missingConfiguration)
        | Some c => (Some (NewJsonFrameConverter c), None)
        end
      else if Converter_Type config =? "influxAuto" then
        match Converter_AutoInfluxConverterConfig config with
        | None => (None, Some missingConfiguration)
        | Some c => (Some (NewAutoInfluxConverter c), None)
        end
      else
        (None, Some ("unknown converter type: " ++ Converter_Type config))
  end.

(** [extractProcessor] past its nil check; the recursive calls of the
    loop pass [&out], which is never nil, and land here. *)
Fixpoint extractProcessor_deref (f : FileStorage) (config : ProcessorConfig)
  {struct config} : option Processor * option error :=
  let missingConfiguration :=
    "missing configuration for " ++ Processor_Type config in
  if Processor_Type config =? "dropFields" then
    match Processor_DropFieldsProcessorConfig config with
    | None => (None, Some missingConfiguration)
    | Some c => (Some (NewDropFieldsProcessor c), None)
    end
  else if Processor_Type config =? "keepFields" then
    match Processor_KeepFieldsProcessorConfig config with
    | None => (None, Some missingConfiguration)
    | Some c => (Some (NewKeepFieldsProcessor c), None)
    end
  else if Processor_Type config =? "multiple" then
    match Processor_MultipleProcessorConfig config with
    | None => (None, Some missingConfiguration)
    | Some m =>
        range_extract _ _ (extractProcessor_deref f) NewMultipleProcessor
          (Processors m) []
    end
  else
    (None, Some ("unknown processor type: " ++ Processor_Type config)).

Definition extractProcessor (f : FileStorage) (config : option ProcessorConfig)
  : option Processor * option error :=
  match config with
  | None => (None, None)
  | Some config => extractProcessor_deref f config
  end.

(** [extractConditionChecker] past its nil check. *)
Fixpoint extractConditionChecker_deref (f : FileStorage)
  (config : ConditionCheckerConfig) {struct config}
  : option ConditionChecker * option error :=
  let missingConfiguration :=
    "missing configuration for " ++ Condition_Type config in
  if Condition_Type config =? "numberCompare" then
    match Condition_NumberCompareConditionConfig config with
    | None => (None, Some missingConfiguration)
    | Some c =>
        (Some (NewNumberCompareCondition (FieldName c) (Op c) (Value c)), None)
    end
  else if Condition_Type config =? "multiple" then
    match Condition_MultipleConditionCheckerConfig config with
    | None => (None, Some missingConfiguration)
    | Some m =>
        range_extract _ _ (extractConditionChecker_deref f)
          (NewMultipleConditionChecker (MultipleCondition_Type m))
          (Conditions m) []
    end
  else
    (None, Some ("unknown condition type: " ++ Condition_Type config)).

Definition extractConditionChecker (f : FileStorage)
  (config : option ConditionCheckerConfig)
  : option ConditionChecker * option error :=
  match config with
  | None => (None, None)
  | Some config => extractConditionChecker_deref f config
  end.

Fixpoint getRemoteWriteConfig_range (backends : list RemoteWriteBackend)
  (uid : string) : option RemoteWriteConfig * bool :=
  match backends with
  | [] => (None, false)
  | rwb :: rest =>
      if Backend_UID rwb =? uid then (Backend_Settings rwb, true)
      else getRemoteWriteConfig_range rest uid
  end.

Definition getRemoteWriteConfig (f : FileStorage) (uid : string)
  : option RemoteWriteConfig * bool :=
  getRemoteWriteConfig_range (remoteWriteBackends f) uid.

(** [extractOutputter] past its nil check.  The [conditional] case
    passes the pointer [config.ConditionalOutputConfig.Outputter], which
    may be nil, to [extractOutputter]: the nil check of that call is
    written out in place. *)
Fixpoint extractOutputter_deref (f : FileStorage) (config : OutputterConfig)
  {struct config} : outcome (option Outputter * option error) :=
  let missingConfiguration :=
    "missing configuration for " ++ Outputter_Type config in
  if Outputter_Type config =? "redirect" then
    match Outputter_RedirectOutputConfig config with
    | None => Return (None, Some missingConfiguration)
    | Some c => Return (Some (NewRedirectOutput c), None)
    end
  else if Outputter_Type config =? "multiple" then
    match Outputter_MultipleOutputterConfig config with
    | None => Return (None, Some missingConfiguration)
    | Some m =>
        range_extract_outcome _ _ (extractOutputter_deref f)
          NewMultipleOutputter (Outputters m) []
    end
  else if Outputter_Type config =? "ManagedStream" then
    Return (Some (NewManagedStreamOutput (FileStorage_ManagedStream f)), None)
  else if Outputter_Type config =? "localSubscribers" then
    Return (Some (NewLocalSubscribersOutput (FileStorage_Node f)), None)
  else if Outputter_Type config =? "conditional" then
    match Outputter_ConditionalOutputConfig config with
    | None => Return (None, Some missingConfiguration)
    | Some c =>
        let (condition, err) :=
          extractConditionChecker f (Conditional_Condition c) in
        match err with
        | Some e => Return (None, Some e)
        | None =>
            match
              match Conditional_Outputter c with
              | None => Return (None, None)
              | Some sub => extractOutputter_deref f sub
              end
            with
            | Panic => Panic
            | Return (outputter, err) =>
                match err with
                | Some e => Return (None, Some e)
                | None =>
                    Return (Some (NewConditionalOutput condition outputter), None)
                end
            end
        end
    end
  else if Outputter_Type config =? "threshold" then
    match Outputter_ThresholdOutputConfig config with
    | None => Return (None, Some missingConfiguration)
    | Some c =>
        Return (Some (NewThresholdOutput (FileStorage_FrameStorage f) c), None)
    end
  else if Outputter_Type config =? "remoteWrite" then
    match Outputter_RemoteWriteOutputConfig config with
    | None => Return (None, Some missingConfiguration)
    | Some c =>
        let (remoteWriteConfig, ok) :=
          getRemoteWriteConfig f (RemoteWriteOutput_UID c) in
        if negb ok then
          Return (None, Some ("unknown remote write backend uid: "
                              ++ RemoteWriteOutput_UID c))
        else
          match remoteWriteConfig with
          | None => Panic
          | Some settings => Return (Some (NewRemoteWriteOutput settings), None)
          end
    end
  else if Outputter_Type config =? "changeLog" then
    match Outputter_ChangeLogOutputConfig config with
    | None => Return (None, Some missingConfiguration)
    | Some c =>
        Return (Some (NewChangeLogOutput (FileStorage_FrameStorage f) c), None)
    end
  else
    Return (None, Some ("unknown output type: " ++ Outputter_Type config)).

Definition extractOutputter (f : FileStorage) (config : option OutputterConfig)
  : outcome (option Outputter * option error) :=
  match config with
  | None => Return (None, None)
  | Some config => extractOutputter_deref f config
  end.

(** ** The loader *)

(** The assignment [f.remoteWriteBackends = backends]. *)
Definition assign_remoteWriteBackends (f : FileStorage)
  (backends : list RemoteWriteBackend) : FileStorage :=
  {| FileStorage_Node := FileStorage_Node f;
     FileStorage_ManagedStream := FileStorage_ManagedStream f;
     FileStorage_FrameStorage := FileStorage_FrameStorage f;
     remoteWriteBackends := backends |}.

(** The loop of [ListChannelRules] over [channelRules.Rules], with the
    [return rules, nil] that follows it. *)
Fixpoint ListChannelRules_range (f : FileStorage) (confs : list ChannelRule)
  (rules : list LiveChannelRule)
  : outcome (list LiveChannelRule * option error) :=
  match confs with
  | [] => Return (rules, None)
  | ruleConfig :: rest =>
      let (converter, err) :=
        extractConverter f (Settings_Converter (Settings ruleConfig)) in
      match err with
      | Some e => Return ([], Some e)
      | None =>
          let (processor, err) :=
            extractProcessor f (Settings_Processor (Settings ruleConfig)) in
          match err with
          | Some e => Return ([], Some e)
          | None =>
              match
                extractOutputter f (Settings_Outputter (Settings ruleConfig))
              with
              | Panic => Panic
              | Return (outputter, err) =>
                  match err with
                  | Some e => Return ([], Some e)
                  | None =>
                      ListChannelRules_range f rest
                        ((rules ++
                         [ {| Pattern := ChannelRule_Pattern ruleConfig;
                              LiveChannelRule_Converter := converter;
                              LiveChannelRule_Processor := processor;
                              LiveChannelRule_Outputter := outputter |} ])%list)
                  end
              end
          end
      end
  end.

Section Loader.

(** [json.Unmarshal] into a zero [ChannelRules]: the decoded document and
    the decoding error, if any. *)
Variable json_Unmarshal : list byte -> ChannelRules * option error.

(** [ListChannelRules] on the receiver [f], given the bytes that
    [ioutil.ReadFile] produced for the rules file (its error is dropped
    by the source; the context and the command arguments are unused).
    The first component is the receiver after the call. *)
Definition ListChannelRules (f : FileStorage) (ruleBytes : list byte)
  : FileStorage * outcome (list LiveChannelRule * option error) :=
  let (channelRules, err) := json_Unmarshal ruleBytes in
  match err with
  | Some e => (f, Return ([], Some e))
  | None =>
      let f := assign_remoteWriteBackends f (RemoteWriteBackends channelRules) in
      (f, ListChannelRules_range f (Rules channelRules) [])
  end.

End Loader.

(** ** Vocabulary of the properties *)

(** The [case] labels of each extractor's [switch], in source order. *)
Definition converter_types : list string :=
  ["jsonAuto"; "jsonExact"; "jsonFrame"; "influxAuto"].
Definition processor_types : list string :=
  ["dropFields"; "keepFields"; "multiple"].
Definition condition_types : list string :=
  ["numberCompare"; "multiple"].
Definition outputter_types : list string :=
  ["redirect"; "multiple"; "ManagedStream"; "localSubscribers";
   "conditional"; "threshold"; "remoteWrite"; "changeLog"].

(** A stage builds when its extractor returns a nil error. *)
Definition converter_builds (f : FileStorage) (c : option ConverterConfig)
  : Prop := snd (extractConverter f c) = None.
Definition processor_builds (f : FileStorage) (c : option ProcessorConfig)
  : Prop := snd (extractProcessor f c) = None.
Definition condition_builds (f : FileStorage)
  (c : option ConditionCheckerConfig) : Prop :=
  snd (extractConditionChecker f c) = None.
Definition outputter_builds (f : FileStorage) (c : option OutputterConfig)
  : Prop := exists v, extractOutputter f c = Return (v, None).

(** A rule builds when its three stages do. *)
Definition rule_builds (f : FileStorage) (r : ChannelRule) : Prop :=
  converter_builds f (Settings_Converter (Settings r)) /\
  processor_builds f (Settings_Processor (Settings r)) /\
  outputter_builds f (Settings_Outputter (Settings r)).

(** A rule fails with [e] when the first of its stages that does not
    build returns the error [e]; the stages are built in the order
    converter, processor, outputter. *)
Definition rule_fails (f : FileStorage) (r : ChannelRule) (e : error) : Prop :=
  (exists v, extractConverter f (Settings_Converter (Settings r)) = (v, Some e))
  \/ (converter_builds f (Settings_Converter (Settings r)) /\
      exists v,
        extractProcessor f (Settings_Processor (Settings r)) = (v, Some e))
  \/ (converter_builds f (Settings_Converter (Settings r)) /\
      processor_builds f (Settings_Processor (Settings r)) /\
      exists v,
        extractOutputter f (Settings_Outputter (Settings r))
        = Return (v, Some e)).

(** A node of a configuration tree, tagged with its stage kind. *)
Inductive ConfigNode : Type :=
| ConverterNode (c : ConverterConfig)
| ProcessorNode (c : ProcessorConfig)
| ConditionNode (c : ConditionCheckerConfig)
| OutputterNode (c : OutputterConfig).

Definition node_type (n : ConfigNode) : string :=
  match n with
  | ConverterNode c => Converter_Type c
  | ProcessorNode c => Processor_Type c
  | ConditionNode c => Condition_Type c
  | OutputterNode c => Outputter_Type c
  end.

Definition known_types (n : ConfigNode) : list string :=
  match n with
  | ConverterNode _ => converter_types
  | ProcessorNode _ => processor_types
  | ConditionNode _ => condition_types
  | OutputterNode _ => outputter_types
  end.

(** The message of the [default] branch of the node's extractor. *)
Definition unknown_type_error (n : ConfigNode) : error :=
  match n with
  | ConverterNode c => "unknown converter type: " ++ Converter_Type c
  | ProcessorNode c => "unknown processor type: " ++ Processor_Type c
  | ConditionNode c => "unknown condition type: " ++ Condition_Type c
  | OutputterNode c => "unknown output type: " ++ Outputter_Type c
  end.

(** The extractor of the node's kind, called on the node, returns
    [nil] and the error [e]. *)
Definition node_fails (f : FileStorage) (n : ConfigNode) (e : error) : Prop :=
  match n with
  | ConverterNode c => extractConverter f (Some c) = (None, Some e)
  | ProcessorNode c => extractProcessor f (Some c) = (None, Some e)
  | ConditionNode c => extractConditionChecker f (Some c) = (None, Some e)
  | OutputterNode c => extractOutputter f (Some c) = Return (None, Some e)
  end.

(** A pointer field is populated. *)
Definition present {A : Type} (p : option A) : bool :=
  match p with
  | Some _ => true
  | None => false
  end.

(** The payload field that corresponds to the node's [type]: the field
    of the node's struct whose [json] tag equals the discriminator.  A
    discriminator that tags no field of the struct has no payload to be
    present. *)
Definition payload_present (n : ConfigNode) : bool :=
  match n with
  | ConverterNode c =>
      if Converter_Type c =? "jsonAuto" then
        present (Converter_AutoJsonConverterConfig c)
      else if Converter_Type c =? "jsonExact" then
        present (Converter_ExactJsonConverterConfig c)
      else if Converter_Type c =? "influxAuto" then
        present (Converter_AutoInfluxConverterConfig c)
      else if Converter_Type c =? "jsonFrame" then
        present (Converter_JsonFrameConverterConfig c)
      else false
  | ProcessorNode c =>
      if Processor_Type c =? "dropFields" then
        present (Processor_DropFieldsProcessorConfig c)
      else if Processor_Type c =? "keepFields" then
        present (Processor_KeepFieldsProcessorConfig c)
      else if Processor_Type c =? "multiple" then
        present (Processor_MultipleProcessorConfig c)
      else false
  | ConditionNode c =>
      if Condition_Type c =? "multiple" then
        present (Condition_MultipleConditionCheckerConfig c)
      else if Condition_Type c =? "numberCompare" then
        present (Condition_NumberCompareConditionConfig c)
      else false
  | OutputterNode c =>
      if Outputter_Type c =? "ManagedStream" then
        present (Outputter_ManagedStreamConfig c)
      else if Outputter_Type c =? "multiple" then
        present (Outputter_MultipleOutputterConfig c)
      else if Outputter_Type c =? "redirect" then
        present (Outputter_RedirectOutputConfig c)
      else if Outputter_Type c =? "conditional" then
        present (Outputter_ConditionalOutputConfig c)
      else if Outputter_Type c =? "threshold" then
        present (Outputter_ThresholdOutputConfig c)
      else if Outputter_Type c =? "remoteWrite" then
        present (Outputter_RemoteWriteOutputConfig c)
      else if Outputter_Type c =? "changeLog" then
        present (Outputter_ChangeLogOutputConfig c)
      else false
  end.

(** The error message [e] contains the text [t]. *)
Fixpoint mentions (e t : string) : bool :=
  prefix t e ||
  match e with
  | EmptyString => false
  | String _ rest => mentions rest t
  end.

Local Open Scope list_scope.

(** The extractor of the node's kind, called on the node, returns a
    nil error. *)
Definition node_builds (f : FileStorage) (n : ConfigNode) : Prop :=
  match n with
  | ConverterNode c => converter_builds f (Some c)
  | ProcessorNode c => processor_builds f (Some c)
  | ConditionNode c => condition_builds f (Some c)
  | OutputterNode c => outputter_builds f (Some c)
  end.

(** [processor_contains c n]: the node [n] lies in the tree of the
    processor [c], at any depth.  Children are entered only through the
    payload that the parent's [type] selects: the builder never looks at
    the other payload fields. *)
Inductive processor_contains : ProcessorConfig -> ConfigNode -> Prop :=
| processor_contains_self c :
    processor_contains c (ProcessorNode c)
| processor_contains_child c m out n :
    Processor_Type c = "multiple"%string ->
    Processor_MultipleProcessorConfig c = Some m ->
    In out (Processors m) ->
    processor_contains out n ->
    processor_contains c n.

Inductive condition_contains : ConditionCheckerConfig -> ConfigNode -> Prop :=
| condition_contains_self c :
    condition_contains c (ConditionNode c)
| condition_contains_child c m out n :
    Condition_Type c = "multiple"%string ->
    Condition_MultipleConditionCheckerConfig c = Some m ->
    In out (Conditions m) ->
    condition_contains out n ->
    condition_contains c n.

Inductive outputter_contains : OutputterConfig -> ConfigNode -> Prop :=
| outputter_contains_self c :
    outputter_contains c (OutputterNode c)
| outputter_contains_child c m out n :
    Outputter_Type c = "multiple"%string ->
    Outputter_MultipleOutputterConfig c = Some m ->
    In out (Outputters m) ->
    outputter_contains out n ->
    outputter_contains c n
| outputter_contains_condition c cc cond n :
    Outputter_Type c = "conditional"%string ->
    Outputter_ConditionalOutputConfig c = Some cc ->
    Conditional_Condition cc = Some cond ->
    condition_contains cond n ->
    outputter_contains c n
| outputter_contains_conditional c cc sub n :
    Outputter_Type c = "conditional"%string ->
    Outputter_ConditionalOutputConfig c = Some cc ->
    Conditional_Outputter cc = Some sub ->
    outputter_contains sub n ->
    outputter_contains c n.

Inductive rule_contains (r : ChannelRule) : ConfigNode -> Prop :=
| rule_contains_converter c :
    Settings_Converter (Settings r) = Some c ->
    rule_contains r (ConverterNode c)
| rule_contains_processor c n :
    Settings_Processor (Settings r) = Some c ->
    processor_contains c n ->
    rule_contains r n
| rule_contains_outputter c n :
    Settings_Outputter (Settings r) = Some c ->
    outputter_contains c n ->
    rule_contains r n.

(** The node lies in the tree of one of the rules. *)
Definition rules_contain (rules : list ChannelRule) (n : ConfigNode) : Prop :=
  exists r, In r rules /\ rule_contains r n.

(** [processor_reaches f c n]: building the processor [c] gets to the
    node [n], every node built before [n] having built without error.
    Children are entered only through the payload that the parent's
    [type] selects. *)
Inductive processor_reaches (f : FileStorage)
  : ProcessorConfig -> ConfigNode -> Prop :=
| processor_reaches_self c :
    processor_reaches f c (ProcessorNode c)
| processor_reaches_child c m pre out post n :
    Processor_Type c = "multiple" ->
    Processor_MultipleProcessorConfig c = Some m ->
    Processors m = pre ++ out :: post ->
    Forall (fun y => processor_builds f (Some y)) pre ->
    processor_reaches f out n ->
    processor_reaches f c n.

Inductive condition_reaches (f : FileStorage)
  : ConditionCheckerConfig -> ConfigNode -> Prop :=
| condition_reaches_self c :
    condition_reaches f c (ConditionNode c)
| condition_reaches_child c m pre out post n :
    Condition_Type c = "multiple" ->
    Condition_MultipleConditionCheckerConfig c = Some m ->
    Conditions m = pre ++ out :: post ->
    Forall (fun y => condition_builds f (Some y)) pre ->
    condition_reaches f out n ->
    condition_reaches f c n.

Inductive outputter_reaches (f : FileStorage)
  : OutputterConfig -> ConfigNode -> Prop :=
| outputter_reaches_self c :
    outputter_reaches f c (OutputterNode c)
| outputter_reaches_child c m pre out post n :
    Outputter_Type c = "multiple" ->
    Outputter_MultipleOutputterConfig c = Some m ->
    Outputters m = pre ++ out :: post ->
    Forall (fun y => outputter_builds f (Some y)) pre ->
    outputter_reaches f out n ->
    outputter_reaches f c n
| outputter_reaches_condition c cc cond n :
    Outputter_Type c = "conditional" ->
    Outputter_ConditionalOutputConfig c = Some cc ->
    Conditional_Condition cc = Some cond ->
    condition_reaches f cond n ->
    outputter_reaches f c n
| outputter_reaches_conditional c cc sub n :
    Outputter_Type c = "conditional" ->
    Outputter_ConditionalOutputConfig c = Some cc ->
    condition_builds f (Conditional_Condition cc) ->
    Conditional_Outputter cc = Some sub ->
    outputter_reaches f sub n ->
    outputter_reaches f c n.

Inductive rule_reaches (f : FileStorage) (r : ChannelRule)
  : ConfigNode -> Prop :=
| rule_reaches_converter c :
    Settings_Converter (Settings r) = Some c ->
    rule_reaches f r (ConverterNode c)
| rule_reaches_processor c n :
    converter_builds f (Settings_Converter (Settings r)) ->
    Settings_Processor (Settings r) = Some c ->
    processor_reaches f c n ->
    rule_reaches f r n
| rule_reaches_outputter c n :
    converter_builds f (Settings_Converter (Settings r)) ->
    processor_builds f (Settings_Processor (Settings r)) ->
    Settings_Outputter (Settings r) = Some c ->
    outputter_reaches f c n ->
    rule_reaches f r n.

(** The loop over the rules gets to [n]: the rules before the one
    holding [n] all build. *)
Inductive rules_reach (f : FileStorage) : list ChannelRule -> ConfigNode -> Prop :=
| rules_reach_intro pre r post n :
    Forall (rule_builds f) pre ->
    rule_reaches f r n ->
    rules_reach f (pre ++ r :: post) n.

(** ** Vocabulary of the diagnosis of a build *)

(** The node's [type] is one of the [case] labels of its extractor. *)
Definition known (n : ConfigNode) : bool :=
  existsb (String.eqb (node_type n)) (known_types n).

(** The cases of [extractOutputter] that read no payload field. *)
Definition payload_free (n : ConfigNode) : bool :=
  match n with
  | OutputterNode c =>
      (Outputter_Type c =? "ManagedStream")
      || (Outputter_Type c =? "localSubscribers")
  | _ => false
  end.

(** The UID that a [remoteWrite] outputter node asks
    [getRemoteWriteConfig] for. *)
Definition remote_write_uid (n : ConfigNode) : option string :=
  match n with
  | OutputterNode c =>
      if Outputter_Type c =? "remoteWrite" then
        option_map RemoteWriteOutput_UID (Outputter_RemoteWriteOutputConfig c)
      else None
  | _ => None
  end.

(** The error that the node's extractor returns on account of the node
    itself, before it looks at any child: the [default] branch, the nil
    check of the selected payload, the failed backend lookup. *)
Definition local_error (f : FileStorage) (n : ConfigNode) : option error :=
  if negb (known n) then Some (unknown_type_error n)
  else if payload_free n then None
  else if negb (payload_present n) then
    Some ("missing configuration for " ++ node_type n)%string
  else
    match remote_write_uid n with
    | Some uid =>
        if snd (getRemoteWriteConfig f uid) then None
        else Some ("unknown remote write backend uid: " ++ uid)%string
    | None => None
    end.

(** The node is a [remoteWrite] outputter whose UID the lookup finds
    with a nil settings pointer, which the extractor dereferences. *)
Definition node_panics (f : FileStorage) (n : ConfigNode) : bool :=
  match remote_write_uid n with
  | Some uid =>
      match getRemoteWriteConfig f uid with
      | (None, true) => true
      | _ => false
      end
  | None => false
  end.

(** The payload field tagged [tag], kept when the node's [type] selects
    it and erased otherwise. *)
Definition selected {A : Type} (type tag : string) (p : option A)
  : option A :=
  if type =? tag then p else None.

(** The node with every payload field erased but the one its [type]
    selects. *)
Definition only_selected_converter (c : ConverterConfig) : ConverterConfig :=
  {| Converter_Type := Converter_Type c;
     Converter_AutoJsonConverterConfig :=
       selected (Converter_Type c) "jsonAuto"
         (Converter_AutoJsonConverterConfig c);
     Converter_ExactJsonConverterConfig :=
       selected (Converter_Type c) "jsonExact"
         (Converter_ExactJsonConverterConfig c);
     Converter_AutoInfluxConverterConfig :=
       selected (Converter_Type c) "influxAuto"
         (Converter_AutoInfluxConverterConfig c);
     Converter_JsonFrameConverterConfig :=
       selected (Converter_Type c) "jsonFrame"
         (Converter_JsonFrameConverterConfig c) |}.

Definition only_selected_processor (c : ProcessorConfig) : ProcessorConfig :=
  {| Processor_Type := Processor_Type c;
     Processor_DropFieldsProcessorConfig :=
       selected (Processor_Type c) "dropFields"
         (Processor_DropFieldsProcessorConfig c);
     Processor_KeepFieldsProcessorConfig :=
       selected (Processor_Type c) "keepFields"
         (Processor_KeepFieldsProcessorConfig c);
     Processor_MultipleProcessorConfig :=
       selected (Processor_Type c) "multiple"
         (Processor_MultipleProcessorConfig c) |}.

Definition only_selected_condition (c : ConditionCheckerConfig)
  : ConditionCheckerConfig :=
  {| Condition_Type := Condition_Type c;
     Condition_MultipleConditionCheckerConfig :=
       selected (Condition_Type c) "multiple"
         (Condition_MultipleConditionCheckerConfig c);
     Condition_NumberCompareConditionConfig :=
       selected (Condition_Type c) "numberCompare"
         (Condition_NumberCompareConditionConfig c) |}.

Definition only_selected_outputter (c : OutputterConfig) : OutputterConfig :=
  {| Outputter_Type := Outputter_Type c;
     Outputter_ManagedStreamConfig := None;
     Outputter_MultipleOutputterConfig :=
       selected (Outputter_Type c) "multiple"
         (Outputter_MultipleOutputterConfig c);
     Outputter_RedirectOutputConfig :=
       selected (Outputter_Type c) "redirect"
         (Outputter_RedirectOutputConfig c);
     Outputter_ConditionalOutputConfig :=
       selected (Outputter_Type c) "conditional"
         (Outputter_ConditionalOutputConfig c);
     Outputter_ThresholdOutputConfig :=
       selected (Outputter_Type c) "threshold"
         (Outputter_ThresholdOutputConfig c);
     Outputter_RemoteWriteOutputConfig :=
       selected (Outputter_Type c) "remoteWrite"
         (Outputter_RemoteWriteOutputConfig c);
     Outputter_ChangeLogOutputConfig :=
       selected (Outputter_Type c) "changeLog"
         (Outputter_ChangeLogOutputConfig c) |}.

(** The rule that the loader appends for [r] when its stages build. *)
Definition built_as (f : FileStorage) (r : ChannelRule) (rule : LiveChannelRule)
  : Prop :=
  Pattern rule = ChannelRule_Pattern r /\
  extractConverter f (Settings_Converter (Settings r))
  = (LiveChannelRule_Converter rule, None) /\
  extractProcessor f (Settings_Processor (Settings r))
  = (LiveChannelRule_Processor rule, None) /\
  extractOutputter f (Settings_Outputter (Settings r))
  = Return (LiveChannelRule_Outputter rule, None).

(** The node raises no error of its own and does not panic. *)
Definition node_ok (f : FileStorage) (n : ConfigNode) : bool :=
  match local_error f n with
  | Some _ => false
  | None => negb (node_panics f n)
  end.

End Builder.

(** * Sample configurations

    Concrete documents on which the properties below are exercised.  The
    abstract leaf types are instantiated with plain data: a remote-write
    configuration is its endpoint, a condition type and a comparison
    operator are their names. *)

Module Example.

Definition sample_collaborators : Collaborators := {|
  AutoJsonConverterConfig := unit;
  ExactJsonConverterConfig := unit;
  AutoInfluxConverterConfig := unit;
  JsonFrameConverterConfig := unit;
  DropFieldsProcessorConfig := list string;
  KeepFieldsProcessorConfig := list string;
  RedirectOutputConfig := string;
  ThresholdOutputConfig := string;
  ChangeLogOutputConfig := string;
  RemoteWriteConfig := string;
  ConditionType := string;
  NumberCompareOp := string;
  float64 := nat;
  centrifuge_Node := unit;
  managedstream_Runner := unit;
  FrameStorage := unit
|}.

#[local] Existing Instance sample_collaborators.

Definition storage (backends : list RemoteWriteBackend) : FileStorage :=
  {| FileStorage_Node := tt;
     FileStorage_ManagedStream := tt;
     FileStorage_FrameStorage := tt;
     remoteWriteBackends := backends |}.

(** A decoder that yields the document [doc] for any input. *)
Definition decodes_to (doc : ChannelRules)
  : list byte -> ChannelRules * option error :=
  fun _ => (doc, None).

(** *** Nodes *)

Definition converter (type : string) (jsonAuto : option unit)
  : ConverterConfig :=
  {| Converter_Type := type;
     Converter_AutoJsonConverterConfig := jsonAuto;
     Converter_ExactJsonConverterConfig := None;
     Converter_AutoInfluxConverterConfig := None;
     Converter_JsonFrameConverterConfig := None |}.

Definition processor (type : string) (dropFields keepFields : option (list string))
  (multiple : option (list ProcessorConfig)) : ProcessorConfig :=
  {| Processor_Type := type;
     Processor_DropFieldsProcessorConfig := dropFields;
     Processor_KeepFieldsProcessorConfig := keepFields;
     Processor_MultipleProcessorConfig :=
       option_map Build_MultipleProcessorConfig multiple |}.

Definition number_compare (fieldName op : string) (value : nat)
  : ConditionCheckerConfig :=
  {| Condition_Type := "numberCompare";
     Condition_MultipleConditionCheckerConfig := None;
     Condition_NumberCompareConditionConfig :=
       Some {| FieldName := fieldName; Op := op; Value := value |} |}.

Definition condition_of_type (type : string) : ConditionCheckerConfig :=
  {| Condition_Type := type;
     Condition_MultipleConditionCheckerConfig := None;
     Condition_NumberCompareConditionConfig := None |}.

Definition all_of (conditions : list ConditionCheckerConfig)
  : ConditionCheckerConfig :=
  {| Condition_Type := "multiple";
     Condition_MultipleConditionCheckerConfig :=
       Some {| MultipleCondition_Type := "and"; Conditions := conditions |};
     Condition_NumberCompareConditionConfig := None |}.

(** An outputter node of the given type with no payload field set. *)
Definition outputter_of_type (type : string) : OutputterConfig :=
  {| Outputter_Type := type;
     Outputter_ManagedStreamConfig := None;
     Outputter_MultipleOutputterConfig := None;
     Outputter_RedirectOutputConfig := None;
     Outputter_ConditionalOutputConfig := None;
     Outputter_ThresholdOutputConfig := None;
     Outputter_RemoteWriteOutputConfig := None;
     Outputter_ChangeLogOutputConfig := None |}.

Definition remote_write (uid : string) : OutputterConfig :=
  {| Outputter_Type := "remoteWrite";
     Outputter_ManagedStreamConfig := None;
     Outputter_MultipleOutputterConfig := None;
     Outputter_RedirectOutputConfig := None;
     Outputter_ConditionalOutputConfig := None;
     Outputter_ThresholdOutputConfig := None;
     Outputter_RemoteWriteOutputConfig :=
       Some {| RemoteWriteOutput_UID := uid |};
     Outputter_ChangeLogOutputConfig := None |}.

Definition fan_out (outputters : list OutputterConfig) : OutputterConfig :=
  {| Outputter_Type := "multiple";
     Outputter_ManagedStreamConfig := None;
     Outputter_MultipleOutputterConfig :=
       Some {| Outputters := outputters |};
     Outputter_RedirectOutputConfig := None;
     Outputter_ConditionalOutputConfig := None;
     Outputter_ThresholdOutputConfig := None;
     Outputter_RemoteWriteOutputConfig := None;
     Outputter_ChangeLogOutputConfig := None |}.

Definition conditional (condition : option ConditionCheckerConfig)
  (outputter : option OutputterConfig) : OutputterConfig :=
  {| Outputter_Type := "conditional";
     Outputter_ManagedStreamConfig := None;
     Outputter_MultipleOutputterConfig := None;
     Outputter_RedirectOutputConfig := None;
     Outputter_ConditionalOutputConfig :=
       Some {| Conditional_Condition := condition;
               Conditional_Outputter := outputter |};
     Outputter_ThresholdOutputConfig := None;
     Outputter_RemoteWriteOutputConfig := None;
     Outputter_ChangeLogOutputConfig := None |}.

Definition rule (pattern : string) (c : option ConverterConfig)
  (p : option ProcessorConfig) (o : option OutputterConfig) : ChannelRule :=
  {| ChannelRule_Pattern := pattern;
     Settings := {| Settings_Converter := c;
                    Settings_Processor := p;
                    Settings_Outputter := o |} |}.

(** *** Backends and rules *)

Definition prometheus : RemoteWriteBackend :=
  {| Backend_UID := "prom"; Backend_Settings := Some "http://prom/push" |}.

Definition influx : RemoteWriteBackend :=
  {| Backend_UID := "influx"; Backend_Settings := Some "http://influx/write" |}.

(** A backend entry whose [settings] is null:
    [{"uid": "prom", "settings": null}]. *)
Definition unconfigured : RemoteWriteBackend :=
  {| Backend_UID := "prom"; Backend_Settings := None |}.

(** A rule that builds: [jsonAuto] converter, [keepFields] processor,
    [localSubscribers] outputter. *)
Definition sound_rule : ChannelRule :=
  rule "stream/json/*"
    (Some (converter "jsonAuto" (Some tt)))
    (Some (processor "keepFields" None (Some ["value"]) None))
    (Some (outputter_of_type "localSubscribers")).

Definition bogus_processor : ProcessorConfig :=
  processor "bogus" None None None.

Definition bogus_condition : ConditionCheckerConfig :=
  condition_of_type "bogus".

(** An unknown condition type three levels down: inside a [multiple]
    condition, inside a [conditional] outputter, inside a [multiple]
    outputter. *)
Definition deep_conditional : OutputterConfig :=
  conditional
    (Some (all_of [number_compare "value" "gt" 5; bogus_condition]))
    (Some (outputter_of_type "ManagedStream")).

Definition deep_rule : ChannelRule :=
  rule "stream/deep" None None
    (Some (fan_out [outputter_of_type "localSubscribers"; deep_conditional])).

Definition deep_document : ChannelRules :=
  {| Rules := [sound_rule; deep_rule]; RemoteWriteBackends := [] |}.

(** A rule whose converter lacks its payload and whose processor has an
    unknown type:
    [{"pattern": "stream/a", "settings": {"converter": {"type": "jsonAuto"},
      "processor": {"type": "bogus"}}}]. *)
Definition two_defects_rule : ChannelRule :=
  rule "stream/a" (Some (converter "jsonAuto" None))
    (Some bogus_processor) None.

Definition two_defects_document : ChannelRules :=
  {| Rules := [two_defects_rule]; RemoteWriteBackends := [] |}.

(** A rule with an unknown converter type,
    [{"pattern": "stream/b", "settings": {"converter": {"type": "bogus"}}}],
    followed by a rule that names a backend absent from the document,
    [{"pattern": "stream/c", "settings": {"outputter":
      {"type": "remoteWrite", "remoteWrite": {"uid": "influx"}}}}]. *)
Definition bogus_converter_rule : ChannelRule :=
  rule "stream/b" (Some (converter "bogus" None)) None None.

Definition dangling_rule : ChannelRule :=
  rule "stream/c" None None (Some (remote_write "influx")).

Definition dangling_after_bogus_document : ChannelRules :=
  {| Rules := [bogus_converter_rule; dangling_rule];
     RemoteWriteBackends := [prometheus] |}.

Definition dangling_document : ChannelRules :=
  {| Rules := [sound_rule; dangling_rule];
     RemoteWriteBackends := [prometheus] |}.

(** A document that decodes, brings its own backend list, and does not
    build. *)
Definition broken_reload_document : ChannelRules :=
  {| Rules := [sound_rule; bogus_converter_rule];
     RemoteWriteBackends := [influx] |}.

(** Two rules that build, then a rule that does not, then one more. *)
Definition late_failure_document : ChannelRules :=
  {| Rules := [sound_rule; sound_rule; two_defects_rule; sound_rule];
     RemoteWriteBackends := [prometheus] |}.

(** A [multiple] processor: drop one field, then keep one. *)
Definition chain : ProcessorConfig :=
  processor "multiple" None None
    (Some [processor "dropFields" (Some ["extra"]) None None;
           processor "keepFields" None (Some ["value"]) None]).

(** A remote write behind a threshold on [value]. *)
Definition gated_remote_write : OutputterConfig :=
  conditional (Some (number_compare "value" "gt" 5))
    (Some (remote_write "influx")).

(** A rule whose outputter names the backend [prom]; with [unconfigured]
    in the backend list its build dereferences the null settings. *)
Definition unconfigured_rule : ChannelRule :=
  rule "stream/p" None None (Some (remote_write "prom")).

Definition bogus_after_unconfigured_document : ChannelRules :=
  {| Rules := [unconfigured_rule; bogus_converter_rule];
     RemoteWriteBackends := [unconfigured] |}.

Definition dangling_after_unconfigured_document : ChannelRules :=
  {| Rules := [unconfigured_rule; dangling_rule];
     RemoteWriteBackends := [unconfigured] |}.

(** A document that loads: a rule that builds and a remote write to a
    listed backend. *)
Definition forwarding_rule : ChannelRule :=
  rule "stream/forward" None None (Some (remote_write "prom")).

Definition sound_document : ChannelRules :=
  {| Rules := [sound_rule; forwarding_rule];
     RemoteWriteBackends := [prometheus] |}.

(** [sound_document] with one more backend at the end of its list. *)
Definition extended_document : ChannelRules :=
  {| Rules := Rules sound_document;
     RemoteWriteBackends := RemoteWriteBackends sound_document ++ [influx] |}.

(** A decoder that tells two inputs apart by their length. *)
Definition decodes_empty_to (doc other : ChannelRules)
  : list byte -> ChannelRules * option error :=
  fun ruleBytes =>
    match ruleBytes with
    | [] => (doc, None)
    | _ :: _ => (other, None)
    end.

(** The rules that [sound_document] loads to. *)
Definition sound_rules : list LiveChannelRule :=
  [ {| Pattern := "stream/json/*";
       LiveChannelRule_Converter := Some (NewAutoJsonConverter tt);
       LiveChannelRule_Processor := Some (NewKeepFieldsProcessor ["value"]);
       LiveChannelRule_Outputter := Some (NewLocalSubscribersOutput tt) |};
    {| Pattern := "stream/forward";
       LiveChannelRule_Converter := None;
       LiveChannelRule_Processor := None;
       LiveChannelRule_Outputter :=
         Some (NewRemoteWriteOutput "http://prom/push") |} ].

End Example.

(** * Properties of the build *)

Section Properties.

Context {collaborators : Collaborators}.

Local Open Scope list_scope.

(** ** The loops *)

Section RangeFacts.

Variables C S : Type.

Lemma range_extract_all (extract : C -> option S * option error)
  (New : list (option S) -> S) (confs : list C) (stages : list (option S)) :
  Forall2 (fun out v => extract out = (v, None)) confs stages ->
  forall built,
    range_extract C S extract New confs built
    = (Some (New (built ++ stages)), None).
Proof.
  induction 1 as [|out v confs stages Hout _ IH]; intros built; simpl.
  - now rewrite app_nil_r.
  - rewrite Hout, IH, <- app_assoc. reflexivity.
Qed.

Lemma range_extract_first_error (extract : C -> option S * option error)
  (New : list (option S) -> S) (pre post : list C) (out : C)
  (v : option S) (e : error) :
  Forall (fun y => snd (extract y) = None) pre ->
  extract out = (v, Some e) ->
  forall built,
    range_extract C S extract New (pre ++ out :: post) built
    = (None, Some e).
Proof.
  intros Hpre Hout.
  induction Hpre as [|y pre Hy _ IH]; intros built; simpl.
  - now rewrite Hout.
  - destruct (extract y) as [w err]. simpl in Hy. subst err. apply IH.
Qed.

Lemma range_extract_outcome_all
  (extract : C -> outcome (option S * option error))
  (New : list (option S) -> S) (confs : list C) (stages : list (option S)) :
  Forall2 (fun out v => extract out = Return (v, None)) confs stages ->
  forall built,
    range_extract_outcome C S extract New confs built
    = Return (Some (New (built ++ stages)), None).
Proof.
  induction 1 as [|out v confs stages Hout _ IH]; intros built; simpl.
  - now rewrite app_nil_r.
  - rewrite Hout, IH, <- app_assoc. reflexivity.
Qed.

Lemma range_extract_outcome_first_error
  (extract : C -> outcome (option S * option error))
  (New : list (option S) -> S) (pre post : list C) (out : C)
  (v : option S) (e : error) :
  Forall (fun y => exists w, extract y = Return (w, None)) pre ->
  extract out = Return (v, Some e) ->
  forall built,
    range_extract_outcome C S extract New (pre ++ out :: post) built
    = Return (None, Some e).
Proof.
  intros Hpre Hout.
  induction Hpre as [|y pre [w Hy] _ IH]; intros built; simpl.
  - now rewrite Hout.
  - rewrite Hy. apply IH.
Qed.

Lemma range_extract_outcome_first_panic
  (extract : C -> outcome (option S * option error))
  (New : list (option S) -> S) (pre post : list C) (out : C) :
  Forall (fun y => exists w, extract y = Return (w, None)) pre ->
  extract out = Panic ->
  forall built,
    range_extract_outcome C S extract New (pre ++ out :: post) built = Panic.
Proof.
  intros Hpre Hout.
  induction Hpre as [|y pre [w Hy] _ IH]; intros built; simpl.
  - now rewrite Hout.
  - rewrite Hy. apply IH.
Qed.

Lemma range_extract_builds_inv (extract : C -> option S * option error)
  (New : list (option S) -> S) (confs : list C) :
  forall built v,
    range_extract C S extract New confs built = (v, None) ->
    Forall (fun y => snd (extract y) = None) confs.
Proof.
  induction confs as [|out rest IH]; intros built v; simpl; [constructor|].
  destruct (extract out) as [stage [e|]] eqn:Hout; [discriminate|].
  intros H. constructor; [now rewrite Hout|exact (IH _ _ H)].
Qed.

Lemma range_extract_outcome_builds_inv
  (extract : C -> outcome (option S * option error))
  (New : list (option S) -> S) (confs : list C) :
  forall built v,
    range_extract_outcome C S extract New confs built = Return (v, None) ->
    Forall (fun y => exists w, extract y = Return (w, None)) confs.
Proof.
  induction confs as [|out rest IH]; intros built v; simpl; [constructor|].
  destruct (extract out) as [[stage [e|]]|] eqn:Hout; try discriminate.
  intros H. constructor; [eauto|exact (IH _ _ H)].
Qed.

End RangeFacts.

(** ** Unfolding the extractors at composite nodes *)

Lemma eqb_unknown (t : string) (known : list string) :
  ~ In t known -> forall k, In k known -> (t =? k)%string = false.
Proof.
  intros Hnot k Hk. apply String.eqb_neq. intros ->. now apply Hnot.
Qed.

Ltac enter c :=
  destruct c; cbn -[String.append] in *; subst; cbn -[String.append].

Lemma extractProcessor_multiple f c m :
  Processor_Type c = "multiple"%string ->
  Processor_MultipleProcessorConfig c = Some m ->
  extractProcessor f (Some c)
  = range_extract _ _ (fun out => extractProcessor f (Some out))
      NewMultipleProcessor (Processors m) [].
Proof. intros Ht Hm. enter c. reflexivity. Qed.

Lemma extractConditionChecker_multiple f c m :
  Condition_Type c = "multiple"%string ->
  Condition_MultipleConditionCheckerConfig c = Some m ->
  extractConditionChecker f (Some c)
  = range_extract _ _ (fun out => extractConditionChecker f (Some out))
      (NewMultipleConditionChecker (MultipleCondition_Type m))
      (Conditions m) [].
Proof. intros Ht Hm. enter c. reflexivity. Qed.

Lemma extractOutputter_multiple f c m :
  Outputter_Type c = "multiple"%string ->
  Outputter_MultipleOutputterConfig c = Some m ->
  extractOutputter f (Some c)
  = range_extract_outcome _ _ (fun out => extractOutputter f (Some out))
      NewMultipleOutputter (Outputters m) [].
Proof. intros Ht Hm. enter c. reflexivity. Qed.

Lemma extractOutputter_conditional f c cc :
  Outputter_Type c = "conditional"%string ->
  Outputter_ConditionalOutputConfig c = Some cc ->
  extractOutputter f (Some c)
  = match extractConditionChecker f (Conditional_Condition cc) with
    | (_, Some e) => Return (None, Some e)
    | (condition, None) =>
        match extractOutputter f (Conditional_Outputter cc) with
        | Panic => Panic
        | Return (_, Some e) => Return (None, Some e)
        | Return (outputter, None) =>
            Return (Some (NewConditionalOutput condition outputter), None)
        end
    end.
Proof.
  intros Ht Hc. enter c.
  destruct (extractConditionChecker f (Conditional_Condition cc))
    as [condition [e|]]; [reflexivity|].
  unfold extractOutputter.
  destruct (Conditional_Outputter cc) as [sub|]; reflexivity.
Qed.

(** ** The backend lookup *)

Lemma getRemoteWriteConfig_range_unknown backends uid :
  ~ In uid (map Backend_UID backends) ->
  getRemoteWriteConfig_range backends uid = (None, false).
Proof.
  induction backends as [|rwb rest IH]; simpl; intros Hnot; [reflexivity|].
  destruct (String.eqb_spec (Backend_UID rwb) uid) as [Heq|_].
  - exfalso. apply Hnot. now left.
  - apply IH. intros Hin. apply Hnot. now right.
Qed.

Lemma getRemoteWriteConfig_range_found backends uid :
  In uid (map Backend_UID backends) ->
  exists rwb,
    In rwb backends /\ Backend_UID rwb = uid /\
    getRemoteWriteConfig_range backends uid = (Backend_Settings rwb, true).
Proof.
  induction backends as [|rwb rest IH]; simpl; intros Hin; [contradiction|].
  destruct (String.eqb_spec (Backend_UID rwb) uid) as [Heq|Hne].
  - exists rwb. auto.
  - destruct Hin as [Heq|Hin]; [contradiction|].
    destruct (IH Hin) as (b & Hb & Hu & Hget). exists b. auto.
Qed.


(** ** Single nodes *)

(** C6. Each of the four extractors, given an absent (nil) configuration
    node, returns an absent stage and no error. *)
Theorem C6_absent_node_is_no_stage_no_error (f : FileStorage) :
  extractConverter f None = (None, None) /\
  extractProcessor f None = (None, None) /\
  extractConditionChecker f None = (None, None) /\
  extractOutputter f None = Return (None, None).
Proof. repeat split. Qed.

Lemma unknown_type_fails f n :
  ~ In (node_type n) (known_types n) ->
  node_fails f n (unknown_type_error n).
Proof.
  intros H. pose proof (eqb_unknown _ _ H) as Hk.
  destruct n as [c|c|c|c]; destruct c; cbn -[String.append] in Hk |- *;
    repeat rewrite Hk by auto 12; reflexivity.
Qed.

(** C2 (amended). A node whose [type] is a known discriminator other than
    the outputter discriminators [ManagedStream] and [localSubscribers],
    and whose corresponding payload field is absent, makes its extractor
    return nil with the error "missing configuration for <type>".  An
    outputter node of type [ManagedStream] or [localSubscribers] with its
    payload absent builds its output and returns no error. *)
Theorem C2_missing_payload_is_an_error_except_payload_free_outputs
  (f : FileStorage) (n : ConfigNode) :
  In (node_type n) (known_types n) ->
  payload_present n = false ->
  (node_type n <> "ManagedStream"%string ->
   node_type n <> "localSubscribers"%string ->
   node_fails f n ("missing configuration for " ++ node_type n)%string) /\
  (forall c, n = OutputterNode c ->
     (Outputter_Type c = "ManagedStream"%string ->
      extractOutputter f (Some c)
      = Return (Some (NewManagedStreamOutput (FileStorage_ManagedStream f)),
                None)) /\
     (Outputter_Type c = "localSubscribers"%string ->
      extractOutputter f (Some c)
      = Return (Some (NewLocalSubscribersOutput (FileStorage_Node f)), None))).
Proof.
  intros Hknown Habsent. split.
  - intros Hms Hls.
    destruct n as [c|c|c|c]; destruct c; cbn -[String.append] in *;
      repeat (destruct Hknown as [<-|Hknown]; [|try contradiction]);
      cbn -[String.append] in *;
      try congruence;
      repeat match goal with
        | H : present ?p = false |- _ =>
            destruct p; cbn in H; [discriminate H|clear H]
        end;
      reflexivity.
  - intros c ->. split; intros Ht; enter c; reflexivity.
Qed.

(** C9. A [remoteWrite] outputter node whose UID occurs in the loader's
    backend list, the backend entry of that UID having nil settings,
    makes [getRemoteWriteConfig] return a nil settings pointer with
    [true], and the build of the node panics on the dereference instead
    of returning an error. *)
Theorem C9_backend_without_settings_panics
  (f : FileStorage) (c : OutputterConfig) (rw : RemoteWriteOutputConfig) :
  Outputter_Type c = "remoteWrite"%string ->
  Outputter_RemoteWriteOutputConfig c = Some rw ->
  In (RemoteWriteOutput_UID rw) (map Backend_UID (remoteWriteBackends f)) ->
  (forall rwb, In rwb (remoteWriteBackends f) ->
     Backend_UID rwb = RemoteWriteOutput_UID rw ->
     Backend_Settings rwb = None) ->
  getRemoteWriteConfig f (RemoteWriteOutput_UID rw) = (None, true) /\
  extractOutputter f (Some c) = Panic.
Proof.
  intros Ht Hrw Hin Hnil.
  destruct (getRemoteWriteConfig_range_found _ _ Hin) as (rwb & Hb & Hu & Hget).
  rewrite (Hnil rwb Hb Hu) in Hget.
  assert (Hlookup : getRemoteWriteConfig f (RemoteWriteOutput_UID rw)
                    = (None, true)) by exact Hget.
  split; [exact Hlookup|].
  enter c. rewrite Hlookup. reflexivity.
Qed.

(** ** Composite nodes *)

(** C8. A [conditional] outputter node resolves its [condition] sub-node
    with [extractConditionChecker] and then its [outputter] sub-node with
    [extractOutputter], and nothing else: an error of the condition is
    the error of the node, an error of the sub-outputter (the condition
    having built) is the error of the node, and when both build the node
    is the conditional output made of the two.  (A panic of the
    sub-outputter is a panic of the node.) *)
Theorem C8_conditional_resolves_condition_then_outputter
  (f : FileStorage) (c : OutputterConfig) (cc : ConditionalOutputConfig) :
  Outputter_Type c = "conditional"%string ->
  Outputter_ConditionalOutputConfig c = Some cc ->
  (forall v e,
     extractConditionChecker f (Conditional_Condition cc) = (v, Some e) ->
     extractOutputter f (Some c) = Return (None, Some e)) /\
  (forall condition v e,
     extractConditionChecker f (Conditional_Condition cc) = (condition, None) ->
     extractOutputter f (Conditional_Outputter cc) = Return (v, Some e) ->
     extractOutputter f (Some c) = Return (None, Some e)) /\
  (forall condition outputter,
     extractConditionChecker f (Conditional_Condition cc) = (condition, None) ->
     extractOutputter f (Conditional_Outputter cc) = Return (outputter, None) ->
     extractOutputter f (Some c)
     = Return (Some (NewConditionalOutput condition outputter), None)) /\
  (forall condition,
     extractConditionChecker f (Conditional_Condition cc) = (condition, None) ->
     extractOutputter f (Conditional_Outputter cc) = Panic ->
     extractOutputter f (Some c) = Panic).
Proof.
  intros Ht Hc. rewrite (extractOutputter_conditional f c cc Ht Hc).
  repeat split; intros.
  - now rewrite H.
  - now rewrite H, H0.
  - now rewrite H, H0.
  - now rewrite H, H0.
Qed.

(** C10 (amended). A [conditional] outputter node never fails on
    account of an absent [condition] or [outputter] sub-node: the absent
    sub-node resolves to nil without error, no missing-configuration
    error is raised for it, and what the node returns is decided by the
    other sub-node alone.  With both absent the node builds the
    conditional output of a nil condition and a nil child.  With the
    condition absent it builds with a nil condition when the
    sub-outputter builds, and returns the sub-outputter's error, or
    panics as it does, otherwise.  With the sub-outputter absent it
    builds with a nil child when the condition builds, and returns the
    condition's error otherwise. *)
Theorem C10_absent_subnodes_of_a_conditional_resolve_to_nil
  (f : FileStorage) (c : OutputterConfig) (cc : ConditionalOutputConfig) :
  Outputter_Type c = "conditional"%string ->
  Outputter_ConditionalOutputConfig c = Some cc ->
  (Conditional_Condition cc = None ->
   Conditional_Outputter cc = None ->
   extractOutputter f (Some c)
   = Return (Some (NewConditionalOutput None None), None)) /\
  (Conditional_Condition cc = None ->
   extractOutputter f (Some c)
   = match extractOutputter f (Conditional_Outputter cc) with
     | Panic => Panic
     | Return (_, Some e) => Return (None, Some e)
     | Return (outputter, None) =>
         Return (Some (NewConditionalOutput None outputter), None)
     end) /\
  (Conditional_Outputter cc = None ->
   extractOutputter f (Some c)
   = match extractConditionChecker f (Conditional_Condition cc) with
     | (_, Some e) => Return (None, Some e)
     | (condition, None) =>
         Return (Some (NewConditionalOutput condition None), None)
     end).
Proof.
  intros Ht Hc. rewrite (extractOutputter_conditional f c cc Ht Hc).
  repeat split.
  - intros -> ->. reflexivity.
  - intros ->. reflexivity.
  - intros ->.
    destruct (extractConditionChecker f (Conditional_Condition cc))
      as [condition [e|]]; reflexivity.
Qed.

(** C7. A [multiple] processor, condition checker or outputter node
    resolves its children with the extractor of its own kind, in slice
    order.  When every child builds, the node is the composite holding
    the built children in that order; when a child returns an error, the
    children before it having built, the node returns nil and that
    error. *)
Theorem C7_multiple_builds_children_in_declared_order (f : FileStorage) :
  (forall c m,
     Processor_Type c = "multiple"%string ->
     Processor_MultipleProcessorConfig c = Some m ->
     (forall stages,
        Forall2 (fun out v => extractProcessor f (Some out) = (v, None))
          (Processors m) stages ->
        extractProcessor f (Some c)
        = (Some (NewMultipleProcessor stages), None)) /\
     (forall pre out post v e,
        Processors m = pre ++ out :: post ->
        Forall (fun y => processor_builds f (Some y)) pre ->
        extractProcessor f (Some out) = (v, Some e) ->
        extractProcessor f (Some c) = (None, Some e))) /\
  (forall c m,
     Condition_Type c = "multiple"%string ->
     Condition_MultipleConditionCheckerConfig c = Some m ->
     (forall stages,
        Forall2 (fun out v => extractConditionChecker f (Some out) = (v, None))
          (Conditions m) stages ->
        extractConditionChecker f (Some c)
        = (Some (NewMultipleConditionChecker (MultipleCondition_Type m) stages),
           None)) /\
     (forall pre out post v e,
        Conditions m = pre ++ out :: post ->
        Forall (fun y => condition_builds f (Some y)) pre ->
        extractConditionChecker f (Some out) = (v, Some e) ->
        extractConditionChecker f (Some c) = (None, Some e))) /\
  (forall c m,
     Outputter_Type c = "multiple"%string ->
     Outputter_MultipleOutputterConfig c = Some m ->
     (forall stages,
        Forall2 (fun out v => extractOutputter f (Some out) = Return (v, None))
          (Outputters m) stages ->
        extractOutputter f (Some c)
        = Return (Some (NewMultipleOutputter stages), None)) /\
     (forall pre out post v e,
        Outputters m = pre ++ out :: post ->
        Forall (fun y => outputter_builds f (Some y)) pre ->
        extractOutputter f (Some out) = Return (v, Some e) ->
        extractOutputter f (Some c) = Return (None, Some e))).
Proof.
  repeat split; intros.
  - rewrite (extractProcessor_multiple f c m H H0).
    now apply (range_extract_all _ _ _ _ _ stages).
  - rewrite (extractProcessor_multiple f c m H H0), H1.
    now apply range_extract_first_error with (v := v).
  - rewrite (extractConditionChecker_multiple f c m H H0).
    now apply (range_extract_all _ _ _ _ _ stages).
  - rewrite (extractConditionChecker_multiple f c m H H0), H1.
    now apply range_extract_first_error with (v := v).
  - rewrite (extractOutputter_multiple f c m H H0).
    now apply (range_extract_outcome_all _ _ _ _ _ stages).
  - rewrite (extractOutputter_multiple f c m H H0), H1.
    now apply range_extract_outcome_first_error with (v := v).
Qed.


(** ** Errors travel up the tree *)

Lemma processor_reaches_fails f c n e :
  processor_reaches f c n -> node_fails f n e ->
  extractProcessor f (Some c) = (None, Some e).
Proof.
  induction 1 as [c|c m pre out post n Ht Hm Hsplit Hpre _ IH]; intros Hn.
  - exact Hn.
  - rewrite (extractProcessor_multiple f c m Ht Hm), Hsplit.
    apply range_extract_first_error with (v := None); [exact Hpre|auto].
Qed.

Lemma condition_reaches_fails f c n e :
  condition_reaches f c n -> node_fails f n e ->
  extractConditionChecker f (Some c) = (None, Some e).
Proof.
  induction 1 as [c|c m pre out post n Ht Hm Hsplit Hpre _ IH]; intros Hn.
  - exact Hn.
  - rewrite (extractConditionChecker_multiple f c m Ht Hm), Hsplit.
    apply range_extract_first_error with (v := None); [exact Hpre|auto].
Qed.

Lemma outputter_reaches_fails f c n e :
  outputter_reaches f c n -> node_fails f n e ->
  extractOutputter f (Some c) = Return (None, Some e).
Proof.
  induction 1 as [c
                 |c m pre out post n Ht Hm Hsplit Hpre _ IH
                 |c cc cond n Ht Hc Hcond Hreach
                 |c cc sub n Ht Hc Hbuilt Hsub _ IH]; intros Hn.
  - exact Hn.
  - rewrite (extractOutputter_multiple f c m Ht Hm), Hsplit.
    apply range_extract_outcome_first_error with (v := None);
      [exact Hpre|auto].
  - rewrite (extractOutputter_conditional f c cc Ht Hc), Hcond.
    now rewrite (condition_reaches_fails f cond n e Hreach Hn).
  - rewrite (extractOutputter_conditional f c cc Ht Hc).
    unfold condition_builds in Hbuilt.
    destruct (extractConditionChecker f (Conditional_Condition cc))
      as [condition err].
    simpl in Hbuilt. subst err. rewrite Hsub, (IH Hn). reflexivity.
Qed.

Lemma rule_reaches_fails f r n e :
  rule_reaches f r n -> node_fails f n e -> rule_fails f r e.
Proof.
  intros [c Hc|c m Hconv Hp Hreach|c m Hconv Hproc Ho Hreach] Hn.
  - left. exists None. rewrite Hc. exact Hn.
  - right. left. split; [exact Hconv|]. exists None. rewrite Hp.
    now apply processor_reaches_fails with (n := m).
  - right. right. repeat split; try assumption. exists None. rewrite Ho.
    now apply outputter_reaches_fails with (n := m).
Qed.

(** ** A tree that builds has only nodes that build *)

Lemma node_fails_not_builds f n e : node_fails f n e -> ~ node_builds f n.
Proof.
  destruct n as [c|c|c|c];
    unfold node_fails, node_builds, converter_builds, processor_builds,
      condition_builds, outputter_builds;
    intros ->; try (simpl; discriminate).
  intros [v H]. discriminate H.
Qed.

Lemma processor_contains_builds f c n :
  processor_contains c n -> processor_builds f (Some c) -> node_builds f n.
Proof.
  induction 1 as [c|c m out n Ht Hm Hin _ IH]; intros Hb; [exact Hb|].
  apply IH. unfold processor_builds in Hb.
  rewrite (extractProcessor_multiple f c m Ht Hm) in Hb.
  destruct (range_extract _ _ _ _ _ _) as [v err] eqn:Hrange.
  simpl in Hb. subst err.
  apply range_extract_builds_inv in Hrange.
  rewrite Forall_forall in Hrange. exact (Hrange out Hin).
Qed.

Lemma condition_contains_builds f c n :
  condition_contains c n -> condition_builds f (Some c) -> node_builds f n.
Proof.
  induction 1 as [c|c m out n Ht Hm Hin _ IH]; intros Hb; [exact Hb|].
  apply IH. unfold condition_builds in Hb.
  rewrite (extractConditionChecker_multiple f c m Ht Hm) in Hb.
  destruct (range_extract _ _ _ _ _ _) as [v err] eqn:Hrange.
  simpl in Hb. subst err.
  apply range_extract_builds_inv in Hrange.
  rewrite Forall_forall in Hrange. exact (Hrange out Hin).
Qed.

Lemma outputter_contains_builds f c n :
  outputter_contains c n -> outputter_builds f (Some c) -> node_builds f n.
Proof.
  induction 1 as [c
                 |c m out n Ht Hm Hin _ IH
                 |c cc cond n Ht Hc Hcond Hin
                 |c cc sub n Ht Hc Hsub _ IH]; intros [v Hb].
  - exists v. exact Hb.
  - apply IH. rewrite (extractOutputter_multiple f c m Ht Hm) in Hb.
    apply range_extract_outcome_builds_inv in Hb.
    rewrite Forall_forall in Hb. exact (Hb out Hin).
  - apply (condition_contains_builds f cond n Hin).
    rewrite (extractOutputter_conditional f c cc Ht Hc), Hcond in Hb.
    unfold condition_builds.
    destruct (extractConditionChecker f (Some cond)) as [k [e|]];
      [discriminate Hb|reflexivity].
  - apply IH. rewrite (extractOutputter_conditional f c cc Ht Hc), Hsub in Hb.
    destruct (extractConditionChecker f (Conditional_Condition cc))
      as [k [e|]]; [discriminate Hb|].
    destruct (extractOutputter f (Some sub)) as [[w [e|]]|] eqn:Hw;
      try discriminate Hb.
    now exists w.
Qed.

Lemma rule_contains_builds f r n :
  rule_contains r n -> rule_builds f r -> node_builds f n.
Proof.
  intros [c Hc|c m Hp Hin|c m Ho Hin] (Hconv & Hproc & Hout).
  - rewrite Hc in Hconv. exact Hconv.
  - apply (processor_contains_builds f c m Hin). now rewrite <- Hp.
  - apply (outputter_contains_builds f c m Hin). now rewrite <- Ho.
Qed.

(** ** The loop over the rules *)

Lemma ListChannelRules_range_first_failure f pre r post e :
  Forall (rule_builds f) pre ->
  rule_fails f r e ->
  forall rules,
    ListChannelRules_range f (pre ++ r :: post) rules = Return ([], Some e).
Proof.
  intros Hpre Hr.
  induction Hpre as [|y pre (Hc & Hp & (o & Ho)) _ IH]; intros rules; simpl.
  - destruct Hr as [[v Hc]|[[Hc [v Hp]]|(Hc & Hp & (v & Ho))]].
    + now rewrite Hc.
    + unfold converter_builds in Hc.
      destruct (extractConverter f _) as [cv err]. simpl in Hc. subst err.
      now rewrite Hp.
    + unfold converter_builds in Hc. unfold processor_builds in Hp.
      destruct (extractConverter f _) as [cv err]. simpl in Hc. subst err.
      destruct (extractProcessor f _) as [pv err]. simpl in Hp. subst err.
      now rewrite Ho.
  - unfold converter_builds in Hc. unfold processor_builds in Hp.
    destruct (extractConverter f _) as [cv err]. simpl in Hc. subst err.
    destruct (extractProcessor f _) as [pv err]. simpl in Hp. subst err.
    rewrite Ho. apply IH.
Qed.

Lemma ListChannelRules_range_error_nil f confs :
  forall rules rs e,
    ListChannelRules_range f confs rules = Return (rs, Some e) -> rs = [].
Proof.
  induction confs as [|r rest IH]; intros rules rs e; simpl.
  - discriminate.
  - destruct (extractConverter f _) as [cv [ec|]]; [congruence|].
    destruct (extractProcessor f _) as [pv [ep|]]; [congruence|].
    destruct (extractOutputter f _) as [[ov [eo|]]|];
      [congruence|apply IH|discriminate].
Qed.

Lemma ListChannelRules_range_complete f confs :
  forall rules rs,
    ListChannelRules_range f confs rules = Return (rs, None) ->
    exists built,
      rs = rules ++ built /\
      map Pattern built = map ChannelRule_Pattern confs /\
      Forall (rule_builds f) confs.
Proof.
  induction confs as [|r rest IH]; intros rules rs; simpl.
  - intros [= <-]. exists []. now rewrite app_nil_r.
  - destruct (extractConverter f _) as [cv [ec|]] eqn:Hc; [discriminate|].
    destruct (extractProcessor f _) as [pv [ep|]] eqn:Hp; [discriminate|].
    destruct (extractOutputter f _) as [[ov [eo|]]|] eqn:Ho;
      [discriminate| |discriminate].
    intros Hrest. destruct (IH _ _ Hrest) as (built & -> & Hpat & Hall).
    eexists (_ :: built). rewrite <- app_assoc. simpl.
    repeat split; [now rewrite Hpat|].
    constructor; [|exact Hall].
    unfold rule_builds, converter_builds, processor_builds, outputter_builds.
    rewrite Hc, Hp, Ho. simpl. eauto.
Qed.

Lemma prefix_refl (t : string) : prefix t t = true.
Proof.
  induction t as [|a t IH]; simpl; [reflexivity|].
  destruct (Ascii.ascii_dec a a); [exact IH|contradiction].
Qed.

Lemma mentions_append (p t : string) : mentions (p ++ t)%string t = true.
Proof.
  induction p as [|a p IH]; simpl.
  - destruct t; simpl; [reflexivity|].
    destruct (Ascii.ascii_dec a a); [|contradiction].
    now rewrite prefix_refl.
  - rewrite IH. apply orb_true_r.
Qed.

Lemma unknown_type_error_mentions n :
  mentions (unknown_type_error n) (node_type n) = true.
Proof. destruct n; apply mentions_append. Qed.

(** ** The load *)

Section LoaderFacts.

Variable json_Unmarshal : list byte -> ChannelRules * option error.

Lemma ListChannelRules_decoded f ruleBytes doc :
  json_Unmarshal ruleBytes = (doc, None) ->
  ListChannelRules json_Unmarshal f ruleBytes
  = (assign_remoteWriteBackends f (RemoteWriteBackends doc),
     ListChannelRules_range
       (assign_remoteWriteBackends f (RemoteWriteBackends doc))
       (Rules doc) []).
Proof. intros H. unfold ListChannelRules. now rewrite H. Qed.

Lemma ListChannelRules_reaches_failure f ruleBytes doc n e :
  json_Unmarshal ruleBytes = (doc, None) ->
  rules_reach (assign_remoteWriteBackends f (RemoteWriteBackends doc))
    (Rules doc) n ->
  node_fails (assign_remoteWriteBackends f (RemoteWriteBackends doc)) n e ->
  ListChannelRules json_Unmarshal f ruleBytes
  = (assign_remoteWriteBackends f (RemoteWriteBackends doc),
     Return ([], Some e)).
Proof.
  intros Hdoc Hreach Hn. rewrite (ListChannelRules_decoded f ruleBytes doc Hdoc).
  f_equal. destruct Hreach as [pre r post n Hpre Hr].
  apply ListChannelRules_range_first_failure; [exact Hpre|].
  now apply rule_reaches_fails with (n := n).
Qed.

Lemma ListChannelRules_contains_failure f ruleBytes doc n :
  json_Unmarshal ruleBytes = (doc, None) ->
  rules_contain (Rules doc) n ->
  ~ node_builds (assign_remoteWriteBackends f (RemoteWriteBackends doc)) n ->
  snd (ListChannelRules json_Unmarshal f ruleBytes) = Panic \/
  exists e,
    snd (ListChannelRules json_Unmarshal f ruleBytes) = Return ([], Some e).
Proof.
  intros Hdoc (r & Hr & Hin) Hn.
  rewrite (ListChannelRules_decoded f ruleBytes doc Hdoc). simpl.
  destruct (ListChannelRules_range _ (Rules doc) []) as [[rs [e|]]|] eqn:Hrun.
  - right. exists e.
    now rewrite (ListChannelRules_range_error_nil _ _ _ _ _ Hrun).
  - exfalso. apply Hn.
    destruct (ListChannelRules_range_complete _ _ _ _ Hrun) as (_ & _ & _ & Hall).
    rewrite Forall_forall in Hall.
    exact (rule_contains_builds _ r n Hin (Hall r Hr)).
  - now left.
Qed.

(** C1 (amended). A node whose [type] matches no known variant of its
    kind, at any depth of a rule's tree under the payloads that the
    parents' types select, keeps [ListChannelRules] from returning rules:
    the call returns a nil rule list with an error, or panics.  When
    every node built before that node builds without error, the error is
    the unknown-type error of the node, which names the type. *)
Theorem C1_unknown_type_fails_the_load
  (f : FileStorage) (ruleBytes : list byte) (doc : ChannelRules)
  (n : ConfigNode) :
  json_Unmarshal ruleBytes = (doc, None) ->
  rules_contain (Rules doc) n ->
  ~ In (node_type n) (known_types n) ->
  (snd (ListChannelRules json_Unmarshal f ruleBytes) = Panic \/
   exists e,
     snd (ListChannelRules json_Unmarshal f ruleBytes) = Return ([], Some e)) /\
  (rules_reach (assign_remoteWriteBackends f (RemoteWriteBackends doc))
     (Rules doc) n ->
   ListChannelRules json_Unmarshal f ruleBytes
   = (assign_remoteWriteBackends f (RemoteWriteBackends doc),
      Return ([], Some (unknown_type_error n)))) /\
  mentions (unknown_type_error n) (node_type n) = true.
Proof.
  intros Hdoc Hin Hunknown.
  pose proof (unknown_type_fails
                (assign_remoteWriteBackends f (RemoteWriteBackends doc))
                n Hunknown) as Hfails.
  repeat split.
  - apply ListChannelRules_contains_failure with (doc := doc) (n := n);
      [exact Hdoc|exact Hin|].
    exact (node_fails_not_builds _ _ _ Hfails).
  - intros Hreach.
    now apply ListChannelRules_reaches_failure with (doc := doc) (n := n).
  - apply unknown_type_error_mentions.
Qed.

(** The settings found for the UID are handed to the built output:
    nothing of the UID is left to resolve after the build. *)
Lemma remoteWrite_resolves_at_build f c rw settings :
  Outputter_Type c = "remoteWrite"%string ->
  Outputter_RemoteWriteOutputConfig c = Some rw ->
  getRemoteWriteConfig f (RemoteWriteOutput_UID rw) = (Some settings, true) ->
  extractOutputter f (Some c)
  = Return (Some (NewRemoteWriteOutput settings), None).
Proof. intros Ht Hrw Hget. enter c. now rewrite Hget. Qed.

(** C3 (amended). A [remoteWrite] outputter node whose [uid] matches no
    entry of the document's [remoteWriteBackends] makes [extractOutputter]
    return nil and the error "unknown remote write backend uid: <uid>":
    the lookup is made by the builder, in the list the loader stored from
    the document.  Such a node, anywhere in a rule's tree under the
    payloads that the parents' types select, keeps [ListChannelRules]
    from returning rules: the call returns a nil rule list with an error,
    or panics.  When every node built before that node builds without
    error, the error is the unknown-UID error of the node. *)
Theorem C3_dangling_backend_uid_fails_the_load
  (f : FileStorage) (ruleBytes : list byte) (doc : ChannelRules)
  (c : OutputterConfig) (rw : RemoteWriteOutputConfig) :
  json_Unmarshal ruleBytes = (doc, None) ->
  rules_contain (Rules doc) (OutputterNode c) ->
  Outputter_Type c = "remoteWrite"%string ->
  Outputter_RemoteWriteOutputConfig c = Some rw ->
  ~ In (RemoteWriteOutput_UID rw)
       (map Backend_UID (RemoteWriteBackends doc)) ->
  extractOutputter
    (assign_remoteWriteBackends f (RemoteWriteBackends doc)) (Some c)
  = Return (None, Some ("unknown remote write backend uid: "
                        ++ RemoteWriteOutput_UID rw)%string) /\
  (snd (ListChannelRules json_Unmarshal f ruleBytes) = Panic \/
   exists e,
     snd (ListChannelRules json_Unmarshal f ruleBytes) = Return ([], Some e)) /\
  (rules_reach (assign_remoteWriteBackends f (RemoteWriteBackends doc))
     (Rules doc) (OutputterNode c) ->
   ListChannelRules json_Unmarshal f ruleBytes
   = (assign_remoteWriteBackends f (RemoteWriteBackends doc),
      Return ([], Some ("unknown remote write backend uid: "
                        ++ RemoteWriteOutput_UID rw)%string))).
Proof.
  intros Hdoc Hin Ht Hrw Hdangling.
  assert (Hnode :
    node_fails (assign_remoteWriteBackends f (RemoteWriteBackends doc))
      (OutputterNode c)
      ("unknown remote write backend uid: " ++ RemoteWriteOutput_UID rw)%string).
  { unfold node_fails. enter c. unfold getRemoteWriteConfig.
    simpl remoteWriteBackends.
    now rewrite (getRemoteWriteConfig_range_unknown _ _ Hdangling). }
  repeat split.
  - exact Hnode.
  - apply ListChannelRules_contains_failure
      with (doc := doc) (n := OutputterNode c); [exact Hdoc|exact Hin|].
    exact (node_fails_not_builds _ _ _ Hnode).
  - intros Hreach.
    now apply ListChannelRules_reaches_failure
      with (doc := doc) (n := OutputterNode c).
Qed.

(** C4. When a rule fails to build (its converter, processor or
    outputter returns an error), the rules before it having built,
    [ListChannelRules] returns a nil rule list with that error, however
    many rules came before.  No call returns rules next to an error, and
    a call that returns without error returns one rule per rule of the
    document, in order. *)
Theorem C4_load_is_all_or_nothing
  (f : FileStorage) (ruleBytes : list byte) (doc : ChannelRules) :
  json_Unmarshal ruleBytes = (doc, None) ->
  (forall pre r post e,
     Rules doc = pre ++ r :: post ->
     Forall (rule_builds
               (assign_remoteWriteBackends f (RemoteWriteBackends doc))) pre ->
     rule_fails (assign_remoteWriteBackends f (RemoteWriteBackends doc)) r e ->
     snd (ListChannelRules json_Unmarshal f ruleBytes) = Return ([], Some e)) /\
  (forall rules e,
     snd (ListChannelRules json_Unmarshal f ruleBytes)
     = Return (rules, Some e) ->
     rules = []) /\
  (forall rules,
     snd (ListChannelRules json_Unmarshal f ruleBytes) = Return (rules, None) ->
     map Pattern rules = map ChannelRule_Pattern (Rules doc)).
Proof.
  intros Hdoc. rewrite (ListChannelRules_decoded f ruleBytes doc Hdoc). simpl.
  repeat split.
  - intros pre r post e -> Hpre Hr.
    now apply ListChannelRules_range_first_failure.
  - intros rules e H. now apply ListChannelRules_range_error_nil in H.
  - intros rules H.
    destruct (ListChannelRules_range_complete _ _ _ _ H) as (built & -> & Hp & _).
    exact Hp.
Qed.

(** C5 (amended). A document that fails to decode leaves the loader as
    it was.  A document that decodes has its [remoteWriteBackends] stored
    in the loader before the first rule is built, so after the call the
    loader holds the new document's backend list whatever the build then
    returns, an error included; the other fields of the loader are not
    written. *)
Theorem C5_decoded_backends_replace_the_stored_list
  (f : FileStorage) (ruleBytes : list byte) :
  (forall doc e,
     json_Unmarshal ruleBytes = (doc, Some e) ->
     ListChannelRules json_Unmarshal f ruleBytes = (f, Return ([], Some e))) /\
  (forall doc,
     json_Unmarshal ruleBytes = (doc, None) ->
     remoteWriteBackends (fst (ListChannelRules json_Unmarshal f ruleBytes))
     = RemoteWriteBackends doc /\
     FileStorage_Node (fst (ListChannelRules json_Unmarshal f ruleBytes))
     = FileStorage_Node f /\
     FileStorage_ManagedStream
       (fst (ListChannelRules json_Unmarshal f ruleBytes))
     = FileStorage_ManagedStream f /\
     FileStorage_FrameStorage
       (fst (ListChannelRules json_Unmarshal f ruleBytes))
     = FileStorage_FrameStorage f).
Proof.
  split.
  - intros doc e H. unfold ListChannelRules. now rewrite H.
  - intros doc H. rewrite (ListChannelRules_decoded f ruleBytes doc H).
    repeat split.
Qed.

End LoaderFacts.


End Properties.

(** * The properties on the sample configurations *)

Section Samples.

Import Example.

#[local] Existing Instance sample_collaborators.

Local Open Scope list_scope.

Ltac builds :=
  repeat constructor;
  repeat match goal with
    | |- rule_builds _ _ => repeat split
    | |- outputter_builds _ _ => eexists; reflexivity
    | |- exists _, _ => eexists; reflexivity
    | |- _ = _ => reflexivity
    end.

(** C1: the unknown condition type of [deep_document], three levels
    down in its second rule, is the error of the load. *)
Lemma C1_witness_deep_unknown_condition :
  ListChannelRules (decodes_to deep_document) (storage [prometheus]) []
  = (storage [], Return ([], Some "unknown condition type: bogus"%string)).
Proof.
  refine (proj1 (proj2 (C1_unknown_type_fails_the_load
                          (decodes_to deep_document) (storage [prometheus]) []
                          deep_document (ConditionNode bogus_condition)
                          _ _ _)) _).
  - reflexivity.
  - exists deep_rule. split; [simpl; auto|].
    eapply rule_contains_outputter; [reflexivity|].
    eapply (outputter_contains_child _ _ deep_conditional);
      [reflexivity|reflexivity|simpl; auto|].
    eapply outputter_contains_condition; [reflexivity|reflexivity|reflexivity|].
    eapply (condition_contains_child _ _ bogus_condition);
      [reflexivity|reflexivity|simpl; auto|].
    apply condition_contains_self.
  - simpl. intuition discriminate.
  - apply (rules_reach_intro _ [sound_rule] deep_rule [] _); [builds|].
    eapply rule_reaches_outputter; [reflexivity|reflexivity|reflexivity|].
    eapply (outputter_reaches_child _ _ _
              [outputter_of_type "localSubscribers"] deep_conditional []);
      [reflexivity|reflexivity|reflexivity|builds|].
    eapply outputter_reaches_condition; [reflexivity|reflexivity|reflexivity|].
    eapply (condition_reaches_child _ _ _
              [number_compare "value" "gt" 5] bogus_condition []);
      [reflexivity|reflexivity|reflexivity|builds|].
    apply condition_reaches_self.
Defined.

(** C1, as stated, fails on [two_defects_document]: its processor node
    has the unknown type [bogus], and the load returns the converter's
    missing-configuration error, which does not name [bogus].  It also
    fails on [bogus_after_unconfigured_document]: the second rule has an
    unknown converter type, and the load panics in the first rule. *)
Lemma C1_counterexample_earlier_defect_hides_unknown_type :
  (rules_contain (Rules two_defects_document) (ProcessorNode bogus_processor) /\
   ~ In (Processor_Type bogus_processor) processor_types /\
   ListChannelRules (decodes_to two_defects_document) (storage []) []
   = (storage [],
      Return ([], Some "missing configuration for jsonAuto"%string)) /\
   mentions "missing configuration for jsonAuto"
     (Processor_Type bogus_processor) = false) /\
  (rules_contain (Rules bogus_after_unconfigured_document)
     (ConverterNode (converter "bogus" None)) /\
   ~ In "bogus"%string converter_types /\
   ListChannelRules (decodes_to bogus_after_unconfigured_document)
     (storage []) []
   = (storage [unconfigured], Panic)).
Proof.
  repeat split.
  - exists two_defects_rule. split; [simpl; auto|].
    eapply rule_contains_processor; [reflexivity|].
    apply processor_contains_self.
  - simpl. intuition discriminate.
  - exists bogus_converter_rule. split; [simpl; auto|].
    now apply rule_contains_converter.
  - simpl. intuition discriminate.
Qed.

(** C2: a [jsonAuto] converter node without its payload. *)
Lemma C2_witness_converter_without_payload :
  node_fails (storage []) (ConverterNode (converter "jsonAuto" None))
    "missing configuration for jsonAuto".
Proof.
  refine (proj1 (C2_missing_payload_is_an_error_except_payload_free_outputs
                   (storage []) (ConverterNode (converter "jsonAuto" None))
                   _ _) _ _).
  - simpl. auto.
  - reflexivity.
  - discriminate.
  - discriminate.
Defined.

(** C2, as stated, fails on the outputter discriminators [ManagedStream]
    and [localSubscribers]: with every payload field absent both nodes
    build their output and return no error. *)
Lemma C2_counterexample_payload_free_outputs_build :
  (In "ManagedStream"%string outputter_types /\
   payload_present (OutputterNode (outputter_of_type "ManagedStream")) = false /\
   extractOutputter (storage []) (Some (outputter_of_type "ManagedStream"))
   = Return (Some (NewManagedStreamOutput tt), None) /\
   ~ node_fails (storage [])
       (OutputterNode (outputter_of_type "ManagedStream"))
       "missing configuration for ManagedStream") /\
  (In "localSubscribers"%string outputter_types /\
   payload_present (OutputterNode (outputter_of_type "localSubscribers"))
   = false /\
   extractOutputter (storage []) (Some (outputter_of_type "localSubscribers"))
   = Return (Some (NewLocalSubscribersOutput tt), None) /\
   ~ node_fails (storage [])
       (OutputterNode (outputter_of_type "localSubscribers"))
       "missing configuration for localSubscribers").
Proof.
  repeat split; try (simpl; auto 12; fail); intros H; discriminate H.
Qed.

(** C3: [dangling_document] names the backend [influx] and lists only
    [prom]. *)
Lemma C3_witness_dangling_uid :
  ListChannelRules (decodes_to dangling_document) (storage []) []
  = (storage [prometheus],
     Return ([], Some "unknown remote write backend uid: influx"%string)).
Proof.
  refine (proj2 (proj2 (C3_dangling_backend_uid_fails_the_load
                          (decodes_to dangling_document) (storage []) []
                          dangling_document (remote_write "influx")
                          {| RemoteWriteOutput_UID := "influx" |}
                          _ _ _ _ _)) _).
  - reflexivity.
  - exists dangling_rule. split; [simpl; auto|].
    eapply rule_contains_outputter; [reflexivity|].
    apply outputter_contains_self.
  - reflexivity.
  - reflexivity.
  - simpl. intuition discriminate.
  - apply (rules_reach_intro _ [sound_rule] dangling_rule [] _); [builds|].
    eapply rule_reaches_outputter; [reflexivity|reflexivity|reflexivity|].
    apply outputter_reaches_self.
Defined.

(** C3, as stated, fails on [dangling_after_bogus_document]: its second
    rule names a backend the document does not list, and the load
    returns the unknown-converter error of the first rule.  It also fails
    on [dangling_after_unconfigured_document], where the load panics in
    the first rule. *)
Lemma C3_counterexample_earlier_defect_hides_dangling_uid :
  (rules_contain (Rules dangling_after_bogus_document)
     (OutputterNode (remote_write "influx")) /\
   ~ In "influx"%string
       (map Backend_UID (RemoteWriteBackends dangling_after_bogus_document)) /\
   ListChannelRules (decodes_to dangling_after_bogus_document) (storage []) []
   = (storage [prometheus],
      Return ([], Some "unknown converter type: bogus"%string)) /\
   mentions "unknown converter type: bogus" "unknown remote write backend uid"
   = false) /\
  (rules_contain (Rules dangling_after_unconfigured_document)
     (OutputterNode (remote_write "influx")) /\
   ~ In "influx"%string
       (map Backend_UID
          (RemoteWriteBackends dangling_after_unconfigured_document)) /\
   ListChannelRules (decodes_to dangling_after_unconfigured_document)
     (storage []) []
   = (storage [unconfigured], Panic)).
Proof.
  repeat split.
  - exists dangling_rule. split; [simpl; auto|].
    eapply rule_contains_outputter; [reflexivity|].
    apply outputter_contains_self.
  - simpl. intuition discriminate.
  - exists dangling_rule. split; [simpl; auto|].
    eapply rule_contains_outputter; [reflexivity|].
    apply outputter_contains_self.
  - simpl. intuition discriminate.
Qed.

(** C4: the third rule of [late_failure_document] fails after two rules
    that built. *)
Lemma C4_witness_late_failure :
  snd (ListChannelRules (decodes_to late_failure_document) (storage []) [])
  = Return ([], Some "missing configuration for jsonAuto"%string).
Proof.
  refine (proj1 (C4_load_is_all_or_nothing
                   (decodes_to late_failure_document) (storage []) []
                   late_failure_document _)
            [sound_rule; sound_rule] two_defects_rule [sound_rule]
            "missing configuration for jsonAuto"%string _ _ _).
  - reflexivity.
  - reflexivity.
  - builds.
  - left. exists None. reflexivity.
Defined.

(** C5, as stated, fails on [broken_reload_document]: the load returns
    an error, and the loader that held [prometheus] now holds the
    document's [influx]. *)
Lemma C5_counterexample_failed_reload_replaces_backends :
  snd (ListChannelRules (decodes_to broken_reload_document)
         (storage [prometheus]) [])
  = Return ([], Some "unknown converter type: bogus"%string) /\
  remoteWriteBackends
    (fst (ListChannelRules (decodes_to broken_reload_document)
            (storage [prometheus]) []))
  = [influx] /\
  remoteWriteBackends
    (fst (ListChannelRules (decodes_to broken_reload_document)
            (storage [prometheus]) []))
  <> remoteWriteBackends (storage [prometheus]).
Proof.
  repeat split. simpl. discriminate.
Qed.

(** C7: [chain] builds its two children in order. *)
Lemma C7_witness_chain :
  extractProcessor (storage []) (Some chain)
  = (Some (NewMultipleProcessor
             [Some (NewDropFieldsProcessor ["extra"%string]);
              Some (NewKeepFieldsProcessor ["value"%string])]),
     None).
Proof.
  refine (proj1 (proj1 (C7_multiple_builds_children_in_declared_order
                          (storage []))
                   chain
                   {| Processors :=
                        [processor "dropFields" (Some ["extra"%string]) None None;
                         processor "keepFields" None (Some ["value"%string]) None] |}
                   _ _) _ _).
  - reflexivity.
  - reflexivity.
  - repeat constructor.
Defined.

(** C8: the sub-outputter of [gated_remote_write] fails after its
    condition built. *)
Lemma C8_witness_gated_remote_write :
  extractOutputter (storage []) (Some gated_remote_write)
  = Return (None, Some "unknown remote write backend uid: influx"%string).
Proof.
  refine (proj1 (proj2 (C8_conditional_resolves_condition_then_outputter
                          (storage []) gated_remote_write
                          {| Conditional_Condition :=
                               Some (number_compare "value" "gt" 5);
                             Conditional_Outputter :=
                               Some (remote_write "influx") |}
                          _ _))
            (Some (NewNumberCompareCondition "value" "gt" 5)) None _ _ _).
  - reflexivity.
  - reflexivity.
  - reflexivity.
  - reflexivity.
Defined.

(** C9: the backend [prom] is listed with null settings. *)
Lemma C9_witness_unconfigured_backend :
  getRemoteWriteConfig (storage [unconfigured]) "prom" = (None, true) /\
  extractOutputter (storage [unconfigured]) (Some (remote_write "prom")) = Panic.
Proof.
  apply (C9_backend_without_settings_panics (storage [unconfigured])
           (remote_write "prom") {| RemoteWriteOutput_UID := "prom" |}).
  - reflexivity.
  - reflexivity.
  - simpl. auto.
  - intros rwb [<-|[]] _. reflexivity.
Defined.

(** C10: a conditional outputter with neither sub-node, one with only
    a sub-outputter and one with only a condition all build. *)
Lemma C10_witness_conditionals_with_absent_subnodes :
  extractOutputter (storage []) (Some (conditional None None))
  = Return (Some (NewConditionalOutput None None), None) /\
  extractOutputter (storage [])
    (Some (conditional None (Some (outputter_of_type "ManagedStream"))))
  = Return (Some (NewConditionalOutput None
                    (Some (NewManagedStreamOutput tt))), None) /\
  extractOutputter (storage [])
    (Some (conditional (Some (number_compare "value" "gt" 5)) None))
  = Return (Some (NewConditionalOutput
                    (Some (NewNumberCompareCondition "value" "gt" 5))
                    None), None).
Proof.
  split; [|split].
  - refine (proj1 (C10_absent_subnodes_of_a_conditional_resolve_to_nil
                     (storage []) (conditional None None)
                     {| Conditional_Condition := None;
                        Conditional_Outputter := None |} _ _) _ _);
      reflexivity.
  - refine (proj1 (proj2 (C10_absent_subnodes_of_a_conditional_resolve_to_nil
                            (storage [])
                            (conditional None
                               (Some (outputter_of_type "ManagedStream")))
                            {| Conditional_Condition := None;
                               Conditional_Outputter :=
                                 Some (outputter_of_type "ManagedStream") |}
                            _ _)) _);
      reflexivity.
  - refine (proj2 (proj2 (C10_absent_subnodes_of_a_conditional_resolve_to_nil
                            (storage [])
                            (conditional
                               (Some (number_compare "value" "gt" 5)) None)
                            {| Conditional_Condition :=
                                 Some (number_compare "value" "gt" 5);
                               Conditional_Outputter := None |}
                            _ _)) _);
      reflexivity.
Defined.

(** C10, as stated, fails when the sub-node that is present does not
    build: with a nil condition and a sub-outputter of unknown type, and
    with a condition of unknown type and a nil sub-outputter, the node
    returns the error of the present sub-node and builds nothing. *)
Lemma C10_counterexample_present_subnode_fails :
  (Conditional_Condition
     {| Conditional_Condition := None;
        Conditional_Outputter := Some (outputter_of_type "bogus") |} = None /\
   extractOutputter (storage [])
     (Some (conditional None (Some (outputter_of_type "bogus"))))
   = Return (None, Some "unknown output type: bogus"%string)) /\
  (Conditional_Outputter
     {| Conditional_Condition := Some bogus_condition;
        Conditional_Outputter := None |} = None /\
   extractOutputter (storage [])
     (Some (conditional (Some bogus_condition) None))
   = Return (None, Some "unknown condition type: bogus"%string)).
Proof. repeat split. Qed.

End Samples.

(** * Diagnosis of a build *)

Section Diagnosis.

Context {collaborators : Collaborators}.

Local Open Scope list_scope.

Ltac split_type :=
  repeat match goal with
    | |- context [String.eqb ?t ?k] =>
        destruct (String.eqb_spec t k);
        [subst; cbn -[String.append getRemoteWriteConfig]|]
    end.


(** ** The error of a node itself *)

Lemma local_error_fails f n e :
  local_error f n = Some e -> node_fails f n e.
Proof.
  unfold local_error, known, payload_free, remote_write_uid, node_fails.
  destruct n as [c|c|c|c]; destruct c;
    cbn -[String.append getRemoteWriteConfig];
    split_type;
    repeat match goal with
      | |- context [present ?p] =>
          destruct p; cbn -[String.append getRemoteWriteConfig]
      end;
    try congruence; try (intros [= <-]; reflexivity).
  all: destruct (getRemoteWriteConfig _ _) as [s [|]];
    cbn -[String.append]; try congruence.
  all: intros [= <-]; reflexivity.
Qed.

Lemma node_panics_panics f n :
  node_panics f n = true ->
  exists c, n = OutputterNode c /\ extractOutputter f (Some c) = Panic.
Proof.
  unfold node_panics, remote_write_uid.
  destruct n as [c|c|c|c]; try discriminate.
  intros H. exists c. split; [reflexivity|]. revert H.
  destruct c as [t ms mu rd co th rw cl];
    cbn -[String.append getRemoteWriteConfig].
  split_type; try discriminate.
  destruct rw as [rw|];
    cbn -[String.append getRemoteWriteConfig]; [|discriminate].
  destruct (getRemoteWriteConfig _ _) as [[s|] [|]]; try discriminate.
  reflexivity.
Qed.

Lemma processor_shape f c :
  local_error f (ProcessorNode c) = None ->
  (exists m, Processor_Type c = "multiple"%string /\
             Processor_MultipleProcessorConfig c = Some m) \/
  (exists v, extractProcessor f (Some c) = (Some v, None)).
Proof.
  unfold local_error, known, payload_free, remote_write_uid.
  destruct c; cbn -[String.append getRemoteWriteConfig].
  split_type;
    repeat match goal with
      | |- context [present ?p] =>
          destruct p; cbn -[String.append getRemoteWriteConfig]
      end; try discriminate; eauto.
Qed.

Lemma condition_shape f c :
  local_error f (ConditionNode c) = None ->
  (exists m, Condition_Type c = "multiple"%string /\
             Condition_MultipleConditionCheckerConfig c = Some m) \/
  (exists v, extractConditionChecker f (Some c) = (Some v, None)).
Proof.
  unfold local_error, known, payload_free, remote_write_uid.
  destruct c; cbn -[String.append getRemoteWriteConfig].
  split_type;
    repeat match goal with
      | |- context [present ?p] =>
          destruct p; cbn -[String.append getRemoteWriteConfig]
      end; try discriminate; eauto.
Qed.

Lemma converter_shape f c :
  local_error f (ConverterNode c) = None ->
  exists v, extractConverter f (Some c) = (Some v, None).
Proof.
  unfold local_error, known, payload_free, remote_write_uid.
  destruct c; cbn -[String.append getRemoteWriteConfig].
  split_type;
    repeat match goal with
      | |- context [present ?p] =>
          destruct p; cbn -[String.append getRemoteWriteConfig]
      end; try discriminate; eauto.
Qed.

Lemma outputter_shape f c :
  local_error f (OutputterNode c) = None ->
  node_panics f (OutputterNode c) = false ->
  (exists m, Outputter_Type c = "multiple"%string /\
             Outputter_MultipleOutputterConfig c = Some m) \/
  (exists cc, Outputter_Type c = "conditional"%string /\
              Outputter_ConditionalOutputConfig c = Some cc) \/
  (exists v, extractOutputter f (Some c) = Return (Some v, None)).
Proof.
  unfold local_error, node_panics, known, payload_free, remote_write_uid.
  destruct c; cbn -[String.append getRemoteWriteConfig].
  split_type;
    repeat match goal with
      | |- context [present ?p] =>
          destruct p; cbn -[String.append getRemoteWriteConfig]
      end; try discriminate; eauto 6.
  destruct (getRemoteWriteConfig _ _) as [[s|] [|]];
    cbn -[String.append]; try discriminate; eauto 6.
Qed.

(** ** Induction over the configuration trees *)

Lemma ProcessorConfig_tree_ind (P : ProcessorConfig -> Prop) :
  (forall c,
     (forall m, Processor_MultipleProcessorConfig c = Some m ->
                Forall P (Processors m)) ->
     P c) ->
  forall c, P c.
Proof.
  intros step. fix IH 1. intros [t d k mo]. apply step. simpl.
  destruct mo as [[l]|]; intros m [= <-]. simpl.
  induction l as [|a l IHl]; constructor; [apply IH|exact IHl].
Qed.

Lemma ConditionCheckerConfig_tree_ind (P : ConditionCheckerConfig -> Prop) :
  (forall c,
     (forall m, Condition_MultipleConditionCheckerConfig c = Some m ->
                Forall P (Conditions m)) ->
     P c) ->
  forall c, P c.
Proof.
  intros step. fix IH 1. intros [t mo nc]. apply step. simpl.
  destruct mo as [[ty l]|]; intros m [= <-]. simpl.
  induction l as [|a l IHl]; constructor; [apply IH|exact IHl].
Qed.

Lemma OutputterConfig_tree_ind (P : OutputterConfig -> Prop) :
  (forall c,
     (forall m, Outputter_MultipleOutputterConfig c = Some m ->
                Forall P (Outputters m)) ->
     (forall cc sub, Outputter_ConditionalOutputConfig c = Some cc ->
                     Conditional_Outputter cc = Some sub -> P sub) ->
     P c) ->
  forall c, P c.
Proof.
  intros step. fix IH 1. intros [t ms mu rd co th rw cl]. apply step; simpl.
  - destruct mu as [[l]|]; intros m [= <-]. simpl.
    induction l as [|a l IHl]; constructor; [apply IH|exact IHl].
  - destruct co as [[cond [sub|]]|]; intros cc sub' [= <-]; simpl;
      intros [= <-]. apply IH.
Qed.

Section Prefix.
Variables C S : Type.

Lemma range_prefix_cases (extract : C -> option S * option error)
  (confs : list C) :
  (exists stages, Forall2 (fun out v => extract out = (v, None)) confs stages)
  \/ (exists pre out post v e,
        confs = pre ++ out :: post /\
        Forall (fun y => snd (extract y) = None) pre /\
        extract out = (v, Some e)).
Proof.
  induction confs as [|a rest IH].
  - left. exists []. constructor.
  - destruct (extract a) as [v [e|]] eqn:Ha.
    + right. exists [], a, rest, v, e. auto.
    + destruct IH as [[stages Hall]|(pre & out & post & w & e & -> & Hpre & Hout)].
      * left. exists (v :: stages). now constructor.
      * right. exists (a :: pre), out, post, w, e. repeat split; auto.
        constructor; [now rewrite Ha|exact Hpre].
Qed.

Lemma range_outcome_prefix_cases
  (extract : C -> outcome (option S * option error)) (confs : list C) :
  (exists stages,
     Forall2 (fun out v => extract out = Return (v, None)) confs stages)
  \/ (exists pre out post,
        confs = pre ++ out :: post /\
        Forall (fun y => exists w, extract y = Return (w, None)) pre /\
        ((exists v e, extract out = Return (v, Some e)) \/ extract out = Panic)).
Proof.
  induction confs as [|a rest IH].
  - left. exists []. constructor.
  - destruct (extract a) as [[v [e|]]|] eqn:Ha.
    + right. exists [], a, rest. eauto 7.
    + destruct IH as [[stages Hall]|(pre & out & post & -> & Hpre & Hout)].
      * left. exists (v :: stages). now constructor.
      * right. exists (a :: pre), out, post. repeat split; eauto.
    + right. exists [], a, rest. auto.
Qed.
End Prefix.

(** ** What an extractor returns, and on account of which node *)

Lemma extractProcessor_outcome f c :
  match extractProcessor f (Some c) with
  | (v, None) => v <> None
  | (v, Some e) =>
      v = None /\
      exists n, processor_reaches f c n /\ local_error f n = Some e
  end.
Proof.
  induction c as [c IH] using ProcessorConfig_tree_ind.
  destruct (local_error f (ProcessorNode c)) as [e|] eqn:Hloc.
  - rewrite (local_error_fails f _ e Hloc : extractProcessor f (Some c) = _).
    split; [reflexivity|]. exists (ProcessorNode c). split; [constructor|exact Hloc].
  - destruct (processor_shape f c Hloc) as [(m & Ht & Hm)|[v ->]];
      [|discriminate].
    rewrite (extractProcessor_multiple f c m Ht Hm).
    destruct (range_prefix_cases _ _ (fun out => extractProcessor f (Some out))
                (Processors m))
      as [[stages Hall]|(pre & out & post & v & e & Hsplit & Hpre & Hout)].
    + rewrite (range_extract_all _ _ _ _ _ stages Hall). discriminate.
    + rewrite Hsplit, (range_extract_first_error _ _ _ _ pre post out v e Hpre Hout).
      split; [reflexivity|].
      specialize (IH m Hm). rewrite Forall_forall in IH.
      assert (Hin : In out (Processors m))
        by (rewrite Hsplit; apply in_elt).
      specialize (IH out Hin). rewrite Hout in IH.
      destruct IH as [_ (n & Hreach & Hn)].
      exists n. split; [|exact Hn].
      now apply (processor_reaches_child f c m pre out post n).
Qed.

Lemma extractConditionChecker_outcome f c :
  match extractConditionChecker f (Some c) with
  | (v, None) => v <> None
  | (v, Some e) =>
      v = None /\
      exists n, condition_reaches f c n /\ local_error f n = Some e
  end.
Proof.
  induction c as [c IH] using ConditionCheckerConfig_tree_ind.
  destruct (local_error f (ConditionNode c)) as [e|] eqn:Hloc.
  - rewrite (local_error_fails f _ e Hloc
             : extractConditionChecker f (Some c) = _).
    split; [reflexivity|].
    exists (ConditionNode c). split; [constructor|exact Hloc].
  - destruct (condition_shape f c Hloc) as [(m & Ht & Hm)|[v ->]];
      [|discriminate].
    rewrite (extractConditionChecker_multiple f c m Ht Hm).
    destruct (range_prefix_cases _ _
                (fun out => extractConditionChecker f (Some out))
                (Conditions m))
      as [[stages Hall]|(pre & out & post & v & e & Hsplit & Hpre & Hout)].
    + rewrite (range_extract_all _ _ _ _ _ stages Hall). discriminate.
    + rewrite Hsplit,
        (range_extract_first_error _ _ _ _ pre post out v e Hpre Hout).
      split; [reflexivity|].
      specialize (IH m Hm). rewrite Forall_forall in IH.
      assert (Hin : In out (Conditions m)) by (rewrite Hsplit; apply in_elt).
      specialize (IH out Hin). rewrite Hout in IH.
      destruct IH as [_ (n & Hreach & Hn)].
      exists n. split; [|exact Hn].
      now apply (condition_reaches_child f c m pre out post n).
Qed.

Lemma extractOutputter_outcome f c :
  match extractOutputter f (Some c) with
  | Return (v, None) => v <> None
  | Return (v, Some e) =>
      v = None /\
      exists n, outputter_reaches f c n /\ local_error f n = Some e
  | Panic => exists n, outputter_reaches f c n /\ node_panics f n = true
  end.
Proof.
  induction c as [c IHm IHc] using OutputterConfig_tree_ind.
  destruct (local_error f (OutputterNode c)) as [e|] eqn:Hloc.
  { rewrite (local_error_fails f _ e Hloc : extractOutputter f (Some c) = _).
    split; [reflexivity|].
    exists (OutputterNode c). split; [constructor|exact Hloc]. }
  destruct (node_panics f (OutputterNode c)) eqn:Hpanic.
  { destruct (node_panics_panics f _ Hpanic) as (c' & [= <-] & ->).
    exists (OutputterNode c). split; [constructor|exact Hpanic]. }
  destruct (outputter_shape f c Hloc Hpanic)
    as [(m & Ht & Hm)|[(cc & Ht & Hc)|[v ->]]]; [| |discriminate].
  - rewrite (extractOutputter_multiple f c m Ht Hm).
    specialize (IHm m Hm). rewrite Forall_forall in IHm.
    destruct (range_outcome_prefix_cases _ _
                (fun out => extractOutputter f (Some out)) (Outputters m))
      as [[stages Hall]|(pre & out & post & Hsplit & Hpre & Hout)].
    + rewrite (range_extract_outcome_all _ _ _ _ _ stages Hall). discriminate.
    + assert (Hin : In out (Outputters m)) by (rewrite Hsplit; apply in_elt).
      specialize (IHm out Hin). rewrite Hsplit.
      destruct Hout as [(v & e & Hout)|Hout]; rewrite Hout in IHm.
      * rewrite (range_extract_outcome_first_error _ _ _ _ pre post out v e
                   Hpre Hout).
        split; [reflexivity|]. destruct IHm as [_ (n & Hreach & Hn)].
        exists n. split; [|exact Hn].
        now apply (outputter_reaches_child f c m pre out post n).
      * rewrite (range_extract_outcome_first_panic _ _ _ _ pre post out
                   Hpre Hout).
        destruct IHm as (n & Hreach & Hn).
        exists n. split; [|exact Hn].
        now apply (outputter_reaches_child f c m pre out post n).
  - rewrite (extractOutputter_conditional f c cc Ht Hc).
    destruct (extractConditionChecker f (Conditional_Condition cc))
      as [k [e|]] eqn:Hk.
    + split; [reflexivity|].
      destruct (Conditional_Condition cc) as [cond|] eqn:Hcond;
        [|discriminate Hk].
      pose proof (extractConditionChecker_outcome f cond) as Hout.
      rewrite Hk in Hout. destruct Hout as [_ (n & Hreach & Hn)].
      exists n. split; [|exact Hn].
      now apply (outputter_reaches_condition f c cc cond n).
    + assert (Hbuilt : condition_builds f (Conditional_Condition cc))
        by (unfold condition_builds; now rewrite Hk).
      destruct (Conditional_Outputter cc) as [sub|] eqn:Hsub;
        [|simpl; discriminate].
      specialize (IHc cc sub Hc Hsub).
      destruct (extractOutputter f (Some sub)) as [[v [e|]]|].
      * split; [reflexivity|]. destruct IHc as [_ (n & Hreach & Hn)].
        exists n. split; [|exact Hn].
        now apply (outputter_reaches_conditional f c cc sub n).
      * discriminate.
      * destruct IHc as (n & Hreach & Hn).
        exists n. split; [|exact Hn].
        now apply (outputter_reaches_conditional f c cc sub n).
Qed.

Lemma rules_reach_cons f r rest n :
  rule_builds f r -> rules_reach f rest n -> rules_reach f (r :: rest) n.
Proof.
  intros Hr [pre r' post n' Hpre Hreach].
  apply (rules_reach_intro f (r :: pre) r' post n'); [now constructor|exact Hreach].
Qed.

Lemma ListChannelRules_range_outcome f confs :
  forall rules,
    match ListChannelRules_range f confs rules with
    | Return (rs, None) => True
    | Return (rs, Some e) =>
        exists n, rules_reach f confs n /\ local_error f n = Some e
    | Panic => exists n, rules_reach f confs n /\ node_panics f n = true
    end.
Proof.
  induction confs as [|r rest IH]; intros rules; simpl; [exact I|].
  assert (Hhead : forall n, rule_reaches f r n -> rules_reach f (r :: rest) n).
  { intros n Hn. exact (rules_reach_intro f [] r rest n (Forall_nil _) Hn). }
  destruct (extractConverter f (Settings_Converter (Settings r)))
    as [cv [e|]] eqn:Hcv.
  { destruct (Settings_Converter (Settings r)) as [c|] eqn:Hc;
      [|discriminate Hcv].
    destruct (local_error f (ConverterNode c)) as [e'|] eqn:Hloc.
    - pose proof (local_error_fails f _ e' Hloc) as Hf. unfold node_fails in Hf.
      rewrite Hcv in Hf. injection Hf as _ <-.
      exists (ConverterNode c). split; [|exact Hloc].
      apply Hhead. now apply rule_reaches_converter.
    - destruct (converter_shape f c Hloc) as [v Hv]. congruence. }
  assert (Hconv : converter_builds f (Settings_Converter (Settings r)))
    by (unfold converter_builds; now rewrite Hcv).
  destruct (extractProcessor f (Settings_Processor (Settings r)))
    as [pv [e|]] eqn:Hpv.
  { destruct (Settings_Processor (Settings r)) as [c|] eqn:Hc;
      [|discriminate Hpv].
    pose proof (extractProcessor_outcome f c) as Hout. rewrite Hpv in Hout.
    destruct Hout as [_ (n & Hreach & Hn)]. exists n. split; [|exact Hn].
    apply Hhead. now apply (rule_reaches_processor f r c n). }
  assert (Hproc : processor_builds f (Settings_Processor (Settings r)))
    by (unfold processor_builds; now rewrite Hpv).
  destruct (extractOutputter f (Settings_Outputter (Settings r)))
    as [[ov [e|]]|] eqn:Hov.
  - destruct (Settings_Outputter (Settings r)) as [c|] eqn:Hc;
      [|discriminate Hov].
    pose proof (extractOutputter_outcome f c) as Hout. rewrite Hov in Hout.
    destruct Hout as [_ (n & Hreach & Hn)]. exists n. split; [|exact Hn].
    apply Hhead. now apply (rule_reaches_outputter f r c n).
  - assert (Hr : rule_builds f r).
    { repeat split; try assumption. exists ov. exact Hov. }
    specialize (IH (rules ++
      [{| Pattern := ChannelRule_Pattern r;
          LiveChannelRule_Converter := cv;
          LiveChannelRule_Processor := pv;
          LiveChannelRule_Outputter := ov |}])).
    destruct (ListChannelRules_range f rest _) as [[rs [e|]]|].
    + destruct IH as (n & Hreach & Hn). exists n. split; [|exact Hn].
      now apply rules_reach_cons.
    + exact I.
    + destruct IH as (n & Hreach & Hn). exists n. split; [|exact Hn].
      now apply rules_reach_cons.
  - destruct (Settings_Outputter (Settings r)) as [c|] eqn:Hc;
      [|discriminate Hov].
    pose proof (extractOutputter_outcome f c) as Hout. rewrite Hov in Hout.
    destruct Hout as (n & Hreach & Hn). exists n. split; [|exact Hn].
    apply Hhead. now apply (rule_reaches_outputter f r c n).
Qed.

(** ** Reached nodes are nodes of the tree *)

Lemma processor_reaches_contains f c n :
  processor_reaches f c n -> processor_contains c n.
Proof.
  induction 1 as [c|c m pre out post n Ht Hm Hsplit _ _ IH]; [constructor|].
  apply (processor_contains_child c m out n Ht Hm); [|exact IH].
  rewrite Hsplit. apply in_elt.
Qed.

Lemma condition_reaches_contains f c n :
  condition_reaches f c n -> condition_contains c n.
Proof.
  induction 1 as [c|c m pre out post n Ht Hm Hsplit _ _ IH]; [constructor|].
  apply (condition_contains_child c m out n Ht Hm); [|exact IH].
  rewrite Hsplit. apply in_elt.
Qed.

Lemma outputter_reaches_contains f c n :
  outputter_reaches f c n -> outputter_contains c n.
Proof.
  induction 1 as [c
                 |c m pre out post n Ht Hm Hsplit _ _ IH
                 |c cc cond n Ht Hc Hcond Hreach
                 |c cc sub n Ht Hc _ Hsub _ IH].
  - constructor.
  - apply (outputter_contains_child c m out n Ht Hm); [|exact IH].
    rewrite Hsplit. apply in_elt.
  - apply (outputter_contains_condition c cc cond n Ht Hc Hcond).
    now apply (condition_reaches_contains f).
  - now apply (outputter_contains_conditional c cc sub n Ht Hc Hsub).
Qed.

Lemma rules_reach_contain f rules n :
  rules_reach f rules n -> rules_contain rules n.
Proof.
  intros [pre r post n' _ Hr]. exists r. split; [apply in_elt|].
  destruct Hr as [c Hc|c m _ Hp Hreach|c m _ _ Ho Hreach].
  - now apply rule_contains_converter.
  - apply (rule_contains_processor r c m Hp).
    now apply (processor_reaches_contains f).
  - apply (rule_contains_outputter r c m Ho).
    now apply (outputter_reaches_contains f).
Qed.

Lemma node_builds_ok f n : node_builds f n -> node_ok f n = true.
Proof.
  intros Hb. unfold node_ok.
  destruct (local_error f n) as [e|] eqn:Hloc.
  - exfalso. exact (node_fails_not_builds f n e (local_error_fails f n e Hloc) Hb).
  - destruct (node_panics f n) eqn:Hp; [|reflexivity].
    destruct (node_panics_panics f n Hp) as (c & -> & Hpanic).
    destruct Hb as [v Hv]. congruence.
Qed.

Lemma getRemoteWriteConfig_range_not_found backends uid :
  snd (getRemoteWriteConfig_range backends uid) = false ->
  ~ In uid (map Backend_UID backends).
Proof.
  intros Hnot Hin.
  destruct (getRemoteWriteConfig_range_found backends uid Hin)
    as (b & _ & _ & Hget).
  rewrite Hget in Hnot. discriminate Hnot.
Qed.

Lemma existsb_eqb_In (t : string) (l : list string) :
  existsb (String.eqb t) l = true <-> In t l.
Proof.
  rewrite existsb_exists. split.
  - intros (k & Hk & Heq). apply String.eqb_eq in Heq. now subst.
  - intros H. exists t. split; [exact H|apply String.eqb_refl].
Qed.

Lemma local_error_cases f n e :
  local_error f n = Some e ->
  (~ In (node_type n) (known_types n) /\ e = unknown_type_error n) \/
  (In (node_type n) (known_types n) /\ payload_present n = false /\
   e = ("missing configuration for " ++ node_type n)%string) \/
  (exists c rw,
     n = OutputterNode c /\
     Outputter_Type c = "remoteWrite"%string /\
     Outputter_RemoteWriteOutputConfig c = Some rw /\
     ~ In (RemoteWriteOutput_UID rw) (map Backend_UID (remoteWriteBackends f)) /\
     e = ("unknown remote write backend uid: "
          ++ RemoteWriteOutput_UID rw)%string).
Proof.
  unfold local_error.
  destruct (known n) eqn:Hknown; simpl.
  2:{ intros [= <-]. left. split; [|reflexivity].
      intros Hin. apply existsb_eqb_In in Hin. unfold known in Hknown.
      congruence. }
  apply existsb_eqb_In in Hknown.
  destruct (payload_free n); [discriminate|].
  destruct (payload_present n) eqn:Hp; simpl.
  2:{ intros [= <-]. right. left. auto. }
  destruct (remote_write_uid n) as [uid|] eqn:Huid; [|discriminate].
  destruct (snd (getRemoteWriteConfig f uid)) eqn:Hfound; [discriminate|].
  intros [= <-]. right. right.
  destruct n as [c|c|c|c]; try discriminate Huid. simpl in Huid.
  destruct (String.eqb_spec (Outputter_Type c) "remoteWrite") as [Ht|];
    [|discriminate Huid].
  destruct (Outputter_RemoteWriteOutputConfig c) as [rw|] eqn:Hrw;
    [|discriminate Huid].
  injection Huid as <-. exists c, rw. repeat split; auto.
  now apply getRemoteWriteConfig_range_not_found.
Qed.

Section LoadDiagnosis.

Variable json_Unmarshal : list byte -> ChannelRules * option error.

(** An error that [ListChannelRules] returns after the document decoded
    is the error of one node of the document: the first node in build
    order that fails, every node built before it having built.  That
    node's extractor returns the error, which is one of three: the
    unknown-type error of a node of unknown type, the
    missing-configuration error of a node of known type whose selected
    payload is absent, or the unknown-UID error of a [remoteWrite]
    outputter whose UID the document's backend list lacks. *)
Theorem build_error_belongs_to_first_failing_node
  (f : FileStorage) (ruleBytes : list byte) (doc : ChannelRules)
  (rules : list LiveChannelRule) (e : error) :
  json_Unmarshal ruleBytes = (doc, None) ->
  snd (ListChannelRules json_Unmarshal f ruleBytes) = Return (rules, Some e) ->
  exists n,
    rules_reach (assign_remoteWriteBackends f (RemoteWriteBackends doc))
      (Rules doc) n /\
    node_fails (assign_remoteWriteBackends f (RemoteWriteBackends doc)) n e /\
    ((~ In (node_type n) (known_types n) /\ e = unknown_type_error n) \/
     (In (node_type n) (known_types n) /\ payload_present n = false /\
      e = ("missing configuration for " ++ node_type n)%string) \/
     (exists c rw,
        n = OutputterNode c /\
        Outputter_Type c = "remoteWrite"%string /\
        Outputter_RemoteWriteOutputConfig c = Some rw /\
        ~ In (RemoteWriteOutput_UID rw)
             (map Backend_UID (RemoteWriteBackends doc)) /\
        e = ("unknown remote write backend uid: "
             ++ RemoteWriteOutput_UID rw)%string)).
Proof.
  intros Hdoc. rewrite (ListChannelRules_decoded _ f ruleBytes doc Hdoc). simpl.
  intros Hrun.
  pose proof (ListChannelRules_range_outcome
                (assign_remoteWriteBackends f (RemoteWriteBackends doc))
                (Rules doc) []) as Hout.
  rewrite Hrun in Hout. destruct Hout as (n & Hreach & Hloc).
  exists n. split; [exact Hreach|]. split; [now apply local_error_fails|].
  exact (local_error_cases _ n e Hloc).
Qed.

(** [ListChannelRules] panics only at a [remoteWrite] outputter node that
    the build gets to and whose UID the lookup finds with nil settings.
    A document whose backend entries all carry settings never makes the
    load panic. *)
Theorem load_panics_only_on_null_backend_settings
  (f : FileStorage) (ruleBytes : list byte) (doc : ChannelRules) :
  json_Unmarshal ruleBytes = (doc, None) ->
  (snd (ListChannelRules json_Unmarshal f ruleBytes) = Panic ->
   exists c rw,
     rules_reach (assign_remoteWriteBackends f (RemoteWriteBackends doc))
       (Rules doc) (OutputterNode c) /\
     Outputter_Type c = "remoteWrite"%string /\
     Outputter_RemoteWriteOutputConfig c = Some rw /\
     getRemoteWriteConfig
       (assign_remoteWriteBackends f (RemoteWriteBackends doc))
       (RemoteWriteOutput_UID rw) = (None, true)) /\
  ((forall rwb, In rwb (RemoteWriteBackends doc) ->
                Backend_Settings rwb <> None) ->
   snd (ListChannelRules json_Unmarshal f ruleBytes) <> Panic).
Proof.
  intros Hdoc. rewrite (ListChannelRules_decoded _ f ruleBytes doc Hdoc). simpl.
  assert (Hchar :
    ListChannelRules_range
      (assign_remoteWriteBackends f (RemoteWriteBackends doc)) (Rules doc) []
    = Panic ->
    exists c rw,
      rules_reach (assign_remoteWriteBackends f (RemoteWriteBackends doc))
        (Rules doc) (OutputterNode c) /\
      Outputter_Type c = "remoteWrite"%string /\
      Outputter_RemoteWriteOutputConfig c = Some rw /\
      getRemoteWriteConfig
        (assign_remoteWriteBackends f (RemoteWriteBackends doc))
        (RemoteWriteOutput_UID rw) = (None, true)).
  { intros Hrun.
    pose proof (ListChannelRules_range_outcome
                  (assign_remoteWriteBackends f (RemoteWriteBackends doc))
                  (Rules doc) []) as Hout.
    rewrite Hrun in Hout. destruct Hout as (n & Hreach & Hp).
    unfold node_panics in Hp.
    destruct (remote_write_uid n) as [uid|] eqn:Huid; [|discriminate].
    destruct n as [c|c|c|c]; try discriminate Huid. simpl in Huid.
    destruct (String.eqb_spec (Outputter_Type c) "remoteWrite") as [Ht|];
      [|discriminate Huid].
    destruct (Outputter_RemoteWriteOutputConfig c) as [rw|] eqn:Hrw;
      [|discriminate Huid].
    injection Huid as <-. exists c, rw. repeat split; auto.
    destruct (getRemoteWriteConfig _ _) as [[s|] [|]]; try discriminate.
    reflexivity. }
  split; [exact Hchar|].
  intros Hall Hpanic. destruct (Hchar Hpanic) as (c & rw & _ & _ & _ & Hget).
  unfold getRemoteWriteConfig in Hget. simpl in Hget.
  assert (Hin : In (RemoteWriteOutput_UID rw)
                  (map Backend_UID (RemoteWriteBackends doc))).
  { destruct (in_dec string_dec (RemoteWriteOutput_UID rw)
                (map Backend_UID (RemoteWriteBackends doc))) as [H|H];
      [exact H|].
    rewrite (getRemoteWriteConfig_range_unknown _ _ H) in Hget.
    discriminate Hget. }
  destruct (getRemoteWriteConfig_range_found _ _ Hin) as (b & Hb & _ & Hgetb).
  rewrite Hgetb in Hget. injection Hget as Hnil. exact (Hall b Hb Hnil).
Qed.

(** A decoded document loads without error exactly when every node of
    every rule's tree, under the payloads that the parents' types
    select, is well formed on its own: known type, selected payload
    present (none needed for [ManagedStream] and [localSubscribers]),
    and for [remoteWrite] a UID that the document lists with settings. *)
Theorem load_succeeds_iff_every_node_is_well_formed
  (f : FileStorage) (ruleBytes : list byte) (doc : ChannelRules) :
  json_Unmarshal ruleBytes = (doc, None) ->
  (exists rules,
     snd (ListChannelRules json_Unmarshal f ruleBytes) = Return (rules, None))
  <->
  (forall n, rules_contain (Rules doc) n ->
     node_ok (assign_remoteWriteBackends f (RemoteWriteBackends doc)) n = true).
Proof.
  intros Hdoc. rewrite (ListChannelRules_decoded _ f ruleBytes doc Hdoc). simpl.
  split.
  - intros [rules Hrun] n (r & Hr & Hin).
    destruct (ListChannelRules_range_complete _ _ _ _ Hrun) as (_ & _ & _ & Hall).
    rewrite Forall_forall in Hall.
    apply node_builds_ok. exact (rule_contains_builds _ r n Hin (Hall r Hr)).
  - intros Hok.
    pose proof (ListChannelRules_range_outcome
                  (assign_remoteWriteBackends f (RemoteWriteBackends doc))
                  (Rules doc) []) as Hout.
    destruct (ListChannelRules_range _ (Rules doc) []) as [[rs [e|]]|].
    + destruct Hout as (n & Hreach & Hloc).
      specialize (Hok n (rules_reach_contain _ _ _ Hreach)).
      unfold node_ok in Hok. rewrite Hloc in Hok. discriminate Hok.
    + now exists rs.
    + destruct Hout as (n & Hreach & Hp).
      specialize (Hok n (rules_reach_contain _ _ _ Hreach)).
      unfold node_ok in Hok. rewrite Hp in Hok.
      destruct (local_error _ n); discriminate Hok.
Qed.
End LoadDiagnosis.

(** On a non-nil node each extractor returns either a stage and a nil
    error, or a nil stage and an error, never both and never neither;
    [extractOutputter] may also panic. *)
Theorem extractors_return_a_stage_or_an_error (f : FileStorage) :
  (forall c, match extractConverter f (Some c) with
             | (Some _, None) | (None, Some _) => True
             | _ => False
             end) /\
  (forall c, match extractProcessor f (Some c) with
             | (Some _, None) | (None, Some _) => True
             | _ => False
             end) /\
  (forall c, match extractConditionChecker f (Some c) with
             | (Some _, None) | (None, Some _) => True
             | _ => False
             end) /\
  (forall c, match extractOutputter f (Some c) with
             | Return (Some _, None) | Return (None, Some _) | Panic => True
             | _ => False
             end).
Proof.
  repeat split; intros c.
  - destruct (local_error f (ConverterNode c)) as [e|] eqn:Hloc.
    + now rewrite (local_error_fails f _ e Hloc
                   : extractConverter f (Some c) = _).
    + destruct (converter_shape f c Hloc) as [v ->]. exact I.
  - pose proof (extractProcessor_outcome f c) as H.
    destruct (extractProcessor f (Some c)) as [[v|] [e|]]; try exact I.
    + now destruct H.
    + now apply H.
  - pose proof (extractConditionChecker_outcome f c) as H.
    destruct (extractConditionChecker f (Some c)) as [[v|] [e|]]; try exact I.
    + now destruct H.
    + now apply H.
  - pose proof (extractOutputter_outcome f c) as H.
    destruct (extractOutputter f (Some c)) as [[[v|] [e|]]|]; try exact I.
    + now destruct H.
    + now apply H.
Qed.

(** The extractors read the payload field that the node's [type]
    selects and no other: erasing every other payload field of a node
    (and the [ManagedStream] field in any case) changes nothing of what
    its extractor returns. *)
Theorem unselected_payloads_are_ignored (f : FileStorage) :
  (forall c, extractConverter f (Some (only_selected_converter c))
             = extractConverter f (Some c)) /\
  (forall c, extractProcessor f (Some (only_selected_processor c))
             = extractProcessor f (Some c)) /\
  (forall c, extractConditionChecker f (Some (only_selected_condition c))
             = extractConditionChecker f (Some c)) /\
  (forall c, extractOutputter f (Some (only_selected_outputter c))
             = extractOutputter f (Some c)).
Proof.
  unfold only_selected_converter, only_selected_processor,
    only_selected_condition, only_selected_outputter, selected.
  repeat split; intros c; destruct c.
  - cbn -[String.append]. split_type; reflexivity.
  - cbn -[String.append range_extract]. split_type; reflexivity.
  - cbn -[String.append range_extract]. split_type; reflexivity.
  - cbn -[String.append getRemoteWriteConfig range_extract_outcome
          extractConditionChecker].
    split_type; reflexivity.
Qed.

(** [getRemoteWriteConfig] reports [true] exactly for the UIDs of the
    stored list, returns a nil pointer when it reports [false], and
    returns the settings of the first entry carrying the UID: a later
    entry with the same UID is never returned. *)
Theorem getRemoteWriteConfig_finds_the_first_entry (f : FileStorage)
  (uid : string) :
  (snd (getRemoteWriteConfig f uid) = true
   <-> In uid (map Backend_UID (remoteWriteBackends f))) /\
  (snd (getRemoteWriteConfig f uid) = false ->
   fst (getRemoteWriteConfig f uid) = None) /\
  (forall pre rwb post,
     remoteWriteBackends f = pre ++ rwb :: post ->
     ~ In uid (map Backend_UID pre) ->
     Backend_UID rwb = uid ->
     getRemoteWriteConfig f uid = (Backend_Settings rwb, true)).
Proof.
  unfold getRemoteWriteConfig. repeat split.
  - intros Hfound.
    destruct (in_dec string_dec uid (map Backend_UID (remoteWriteBackends f)))
      as [H|H]; [exact H|].
    rewrite (getRemoteWriteConfig_range_unknown _ _ H) in Hfound.
    discriminate Hfound.
  - intros Hin.
    destruct (getRemoteWriteConfig_range_found _ _ Hin) as (b & _ & _ & ->).
    reflexivity.
  - intros Hnot. apply getRemoteWriteConfig_range_not_found in Hnot.
    now rewrite (getRemoteWriteConfig_range_unknown _ _ Hnot).
  - intros pre rwb post -> Hpre Hu.
    induction pre as [|a pre IH]; simpl.
    + apply String.eqb_eq in Hu. now rewrite Hu.
    + simpl in Hpre.
      destruct (String.eqb_spec (Backend_UID a) uid) as [Heq|_].
      * exfalso. apply Hpre. now left.
      * apply IH. intros Hin. apply Hpre. now right.
Qed.

Lemma ListChannelRules_range_built f confs :
  forall rules built,
    Forall2 (built_as f) confs built ->
    ListChannelRules_range f confs rules = Return (rules ++ built, None).
Proof.
  induction confs as [|r rest IH]; intros rules built Hall;
    inversion Hall as [|r' rule rest' built' (Hpat & Hc & Hp & Ho) Hrest];
    subst; simpl.
  - now rewrite app_nil_r.
  - rewrite Hc, Hp, Ho, (IH _ _ Hrest), <- app_assoc. simpl.
    destruct rule as [pat cv pv ov]. simpl in *. now subst pat.
Qed.

Lemma ListChannelRules_range_built_inv f confs :
  forall rules rs,
    ListChannelRules_range f confs rules = Return (rs, None) ->
    exists built, rs = rules ++ built /\ Forall2 (built_as f) confs built.
Proof.
  induction confs as [|r rest IH]; intros rules rs; simpl.
  - intros [= <-]. exists []. split; [now rewrite app_nil_r|constructor].
  - destruct (extractConverter f _) as [cv [ec|]] eqn:Hc; [discriminate|].
    destruct (extractProcessor f _) as [pv [ep|]] eqn:Hp; [discriminate|].
    destruct (extractOutputter f _) as [[ov [eo|]]|] eqn:Ho;
      [discriminate| |discriminate].
    intros Hrest. destruct (IH _ _ Hrest) as (built & -> & Hall).
    eexists (_ :: built). rewrite <- app_assoc. simpl.
    split; [reflexivity|]. constructor; [|exact Hall].
    unfold built_as. simpl. rewrite Hc, Hp, Ho. auto.
Qed.

Section LoadResult.

Variable json_Unmarshal : list byte -> ChannelRules * option error.

(** [ListChannelRules] returns the rule list [rules] without error
    exactly when [rules] matches the document's rules one for one, in
    order, each returned rule keeping its pattern and holding the stages
    that the three extractors return, without error, for that rule. *)
Theorem load_returns_exactly_the_built_rules
  (f : FileStorage) (ruleBytes : list byte) (doc : ChannelRules)
  (rules : list LiveChannelRule) :
  json_Unmarshal ruleBytes = (doc, None) ->
  snd (ListChannelRules json_Unmarshal f ruleBytes) = Return (rules, None)
  <->
  Forall2 (built_as (assign_remoteWriteBackends f (RemoteWriteBackends doc)))
    (Rules doc) rules.
Proof.
  intros Hdoc. rewrite (ListChannelRules_decoded _ f ruleBytes doc Hdoc). simpl.
  split.
  - intros Hrun.
    destruct (ListChannelRules_range_built_inv _ _ _ _ Hrun) as (built & -> & H).
    exact H.
  - intros Hall. exact (ListChannelRules_range_built _ _ [] rules Hall).
Qed.

(** What a load returns does not depend on the backend list left in the
    loader by earlier loads, and loading the same bytes again, from the
    loader the first load left, gives the same loader and the same
    outcome. *)
Theorem load_ignores_stored_backends_and_is_idempotent
  (f : FileStorage) (ruleBytes : list byte) :
  (forall stale,
     snd (ListChannelRules json_Unmarshal
            (assign_remoteWriteBackends f stale) ruleBytes)
     = snd (ListChannelRules json_Unmarshal f ruleBytes)) /\
  ListChannelRules json_Unmarshal
    (fst (ListChannelRules json_Unmarshal f ruleBytes)) ruleBytes
  = ListChannelRules json_Unmarshal f ruleBytes.
Proof.
  unfold ListChannelRules.
  destruct (json_Unmarshal ruleBytes) as [doc [e|]]; simpl; split;
    reflexivity.
Qed.
End LoadResult.

Section RangeCompare.
Variables C S : Type.

Lemma range_extract_ext (ex1 ex2 : C -> option S * option error)
  (New : list (option S) -> S) (confs : list C) :
  Forall (fun out => ex1 out = ex2 out) confs ->
  forall built,
    range_extract C S ex1 New confs built
    = range_extract C S ex2 New confs built.
Proof.
  induction 1 as [|out rest Hout _ IH]; intros built; simpl; [reflexivity|].
  rewrite Hout. destruct (ex2 out) as [v [e|]]; [reflexivity|apply IH].
Qed.

Lemma range_extract_outcome_mono
  (ex1 ex2 : C -> outcome (option S * option error))
  (New : list (option S) -> S) (confs : list C) :
  Forall (fun out => forall w, ex1 out = Return (w, None) ->
                               ex2 out = Return (w, None)) confs ->
  forall built v,
    range_extract_outcome C S ex1 New confs built = Return (v, None) ->
    range_extract_outcome C S ex2 New confs built = Return (v, None).
Proof.
  induction 1 as [|out rest Hout _ IH]; intros built v; simpl; [auto|].
  destruct (ex1 out) as [[w [e|]]|]; try discriminate.
  rewrite (Hout w eq_refl). apply IH.
Qed.
End RangeCompare.

Lemma extractProcessor_any_loader (f g : FileStorage) c :
  extractProcessor f c = extractProcessor g c.
Proof.
  destruct c as [c|]; [|reflexivity].
  induction c as [c IH] using ProcessorConfig_tree_ind.
  destruct c as [t d k mo]. cbn -[String.append range_extract] in *.
  split_type; try reflexivity.
  destruct mo as [m|]; [|reflexivity].
  apply range_extract_ext. exact (IH m eq_refl).
Qed.

Lemma extractConditionChecker_any_loader (f g : FileStorage) c :
  extractConditionChecker f c = extractConditionChecker g c.
Proof.
  destruct c as [c|]; [|reflexivity].
  induction c as [c IH] using ConditionCheckerConfig_tree_ind.
  destruct c as [t mo nc]. cbn -[String.append range_extract] in *.
  split_type; try reflexivity.
  destruct mo as [m|]; [|reflexivity].
  apply range_extract_ext. exact (IH m eq_refl).
Qed.

(** Converters, processors and condition checkers are built without
    reading the loader: any two loaders give the same result. *)
Theorem stateless_stages_do_not_read_the_loader (f g : FileStorage) :
  (forall c, extractConverter f c = extractConverter g c) /\
  (forall c, extractProcessor f c = extractProcessor g c) /\
  (forall c, extractConditionChecker f c = extractConditionChecker g c).
Proof.
  split; [|split].
  - reflexivity.
  - exact (extractProcessor_any_loader f g).
  - exact (extractConditionChecker_any_loader f g).
Qed.

Lemma getRemoteWriteConfig_range_app backends extra uid :
  getRemoteWriteConfig_range (backends ++ extra) uid
  = if snd (getRemoteWriteConfig_range backends uid)
    then getRemoteWriteConfig_range backends uid
    else getRemoteWriteConfig_range extra uid.
Proof.
  induction backends as [|rwb rest IH]; simpl; [reflexivity|].
  destruct (Backend_UID rwb =? uid)%string; [reflexivity|exact IH].
Qed.

(** An outputter that builds still builds, to the same output, when
    entries are appended to the loader's backend list. *)
Lemma appended_backends_keep_every_build (f : FileStorage)
  (extra : list RemoteWriteBackend) (c : OutputterConfig)
  (v : option Outputter) :
  extractOutputter f (Some c) = Return (v, None) ->
  extractOutputter
    (assign_remoteWriteBackends f (remoteWriteBackends f ++ extra)) (Some c)
  = Return (v, None).
Proof.
  revert v. induction c as [c IHm IHc] using OutputterConfig_tree_ind.
  intros v.
  destruct c as [t ms mu rd co th rw cl].
  cbn -[String.append getRemoteWriteConfig range_extract_outcome
        extractConditionChecker] in *.
  split_type; try (intros H; exact H).
  - destruct mu as [m|]; [|intros H; exact H].
    apply range_extract_outcome_mono. exact (IHm m eq_refl).
  - destruct co as [cc|]; [|intros H; exact H].
    rewrite (extractConditionChecker_any_loader
               (assign_remoteWriteBackends f (remoteWriteBackends f ++ extra))
               f (Conditional_Condition cc)).
    destruct (extractConditionChecker f (Conditional_Condition cc))
      as [k [e|]]; [intros H; exact H|].
    destruct (Conditional_Outputter cc) as [sub|] eqn:Hsub;
      [|intros H; exact H].
    specialize (IHc cc sub eq_refl Hsub).
    destruct (extractOutputter_deref f sub) as [[w [e|]]|] eqn:Hw;
      try discriminate.
    rewrite (IHc w eq_refl). intros H; exact H.
  - destruct rw as [rwc|]; [|intros H; exact H].
    unfold getRemoteWriteConfig. simpl remoteWriteBackends.
    rewrite getRemoteWriteConfig_range_app.
    destruct (getRemoteWriteConfig_range (remoteWriteBackends f)
                (RemoteWriteOutput_UID rwc)) as [s [|]];
      simpl; [intros H; exact H|discriminate].
Qed.

Section LoadBackends.

Variable json_Unmarshal : list byte -> ChannelRules * option error.

(** A document that loads still loads, to the same rules, when backend
    entries are appended to its [remoteWriteBackends]. *)
Theorem appending_backends_keeps_a_loadable_document
  (f : FileStorage) (ruleBytes ruleBytes' : list byte) (doc : ChannelRules)
  (extra : list RemoteWriteBackend) (rules : list LiveChannelRule) :
  json_Unmarshal ruleBytes = (doc, None) ->
  json_Unmarshal ruleBytes'
  = ({| Rules := Rules doc;
        RemoteWriteBackends := RemoteWriteBackends doc ++ extra |}, None) ->
  snd (ListChannelRules json_Unmarshal f ruleBytes) = Return (rules, None) ->
  snd (ListChannelRules json_Unmarshal f ruleBytes') = Return (rules, None).
Proof.
  intros Hdoc Hdoc'.
  rewrite (ListChannelRules_decoded _ f ruleBytes doc Hdoc),
    (ListChannelRules_decoded _ f ruleBytes' _ Hdoc').
  simpl. intros Hrun.
  destruct (ListChannelRules_range_built_inv _ _ _ _ Hrun) as (built & -> & Hall).
  apply (ListChannelRules_range_built _ _ [] built).
  clear Hrun. revert Hall. apply Forall2_impl.
  intros r rule (Hpat & Hc & Hp & Ho).
  repeat split; [exact Hpat|exact Hc| |].
  { now rewrite (extractProcessor_any_loader
                   (assign_remoteWriteBackends f
                      (RemoteWriteBackends doc ++ extra))
                   (assign_remoteWriteBackends f (RemoteWriteBackends doc))). }
  destruct (Settings_Outputter (Settings r)) as [c|]; [|exact Ho].
  exact (appended_backends_keep_every_build
           (assign_remoteWriteBackends f (RemoteWriteBackends doc)) extra
           _ _ Ho).
Qed.
End LoadBackends.
End Diagnosis.

(** * The diagnosis on the sample configurations *)

Section DiagnosisSamples.

Import Example.

#[local] Existing Instance sample_collaborators.

Local Open Scope list_scope.

(** The error of [two_defects_document] is the error of a node that the
    build gets to. *)
Lemma first_failing_node_of_two_defects :
  exists n,
    rules_reach (storage []) (Rules two_defects_document) n /\
    node_fails (storage []) n "missing configuration for jsonAuto".
Proof.
  destruct (build_error_belongs_to_first_failing_node
              (decodes_to two_defects_document) (storage []) []
              two_defects_document []
              "missing configuration for jsonAuto"%string eq_refl eq_refl)
    as (n & Hreach & Hfails & _).
  exists n. split; [exact Hreach|exact Hfails].
Defined.

(** The panic of [bogus_after_unconfigured_document] comes from a
    [remoteWrite] node that the build gets to. *)
Lemma panic_of_unconfigured_backend :
  exists c,
    rules_reach (storage [unconfigured])
      (Rules bogus_after_unconfigured_document) (OutputterNode c) /\
    Outputter_Type c = "remoteWrite"%string.
Proof.
  destruct (proj1 (load_panics_only_on_null_backend_settings
                     (decodes_to bogus_after_unconfigured_document)
                     (storage []) [] bogus_after_unconfigured_document
                     eq_refl) eq_refl)
    as (c & rw & Hreach & Ht & _).
  exists c. split; [exact Hreach|exact Ht].
Defined.

(** The remote write of [sound_document], which loads, is well formed. *)
Lemma remote_write_of_sound_document_is_well_formed :
  node_ok (storage [prometheus]) (OutputterNode (remote_write "prom")) = true.
Proof.
  apply (proj1 (load_succeeds_iff_every_node_is_well_formed
                  (decodes_to sound_document) (storage []) []
                  sound_document eq_refl)).
  - exists sound_rules. reflexivity.
  - exists forwarding_rule. split; [simpl; auto|].
    eapply rule_contains_outputter; [reflexivity|].
    apply outputter_contains_self.
Defined.

(** [sound_document] loads to [sound_rules], rule for rule. *)
Lemma sound_document_builds_rule_for_rule :
  Forall2 (built_as (storage [prometheus])) (Rules sound_document) sound_rules.
Proof.
  apply (proj1 (load_returns_exactly_the_built_rules
                  (decodes_to sound_document) (storage []) []
                  sound_document sound_rules eq_refl)).
  reflexivity.
Defined.

(** [extended_document] loads to the rules of [sound_document]. *)
Lemma extended_document_loads_alike :
  snd (ListChannelRules (decodes_empty_to sound_document extended_document)
         (storage []) [x00])
  = Return (sound_rules, None).
Proof.
  apply (appending_backends_keeps_a_loadable_document
           (decodes_empty_to sound_document extended_document)
           (storage []) [] [x00] sound_document [influx] sound_rules);
    reflexivity.
Defined.

End DiagnosisSamples.

End pipeline.

(** * Properties of the GeoJSON summary, the migration and the option
      group *)

Module geojson_facts.
Import geojson.

Section Facts.

Context {environment : Environment}.

Lemma assert_string_ok (x : option (any float64)) s :
  assert_string x = (s, true) <-> x = Some (any_string s).
Proof.
  split.
  - destruct x as [[]|]; simpl; try discriminate. now intros [= ->].
  - now intros ->.
Qed.

Lemma assert_slice_ok (x : option (any float64)) l :
  assert_slice x = (l, true) <-> x = Some (any_slice l).
Proof.
  split.
  - destruct x as [[]|]; simpl; try discriminate. now intros [= ->].
  - now intros ->.
Qed.

(** The builder returns either a summary with a body and a nil error, or
    a nil summary, a nil body and an error.  A document that decodes
    and has no string under ["type"] (no such key, or a value that is
    not a string) is refused with the error "missing type", whatever
    else it holds. *)
Theorem builder_returns_a_summary_or_an_error (uid : string)
  (body : list byte) :
  match EntitySummaryBuilder uid body with
  | (Some _, _, None) | (None, [], Some _) => True
  | _ => False
  end /\
  (snd (json_Unmarshal body) = None ->
   (forall s, map_get (fst (json_Unmarshal body)) "type"
              <> Some (any_string s)) ->
   EntitySummaryBuilder uid body = (None, [], Some "missing type")).
Proof.
  unfold EntitySummaryBuilder.
  destruct (json_Unmarshal body) as [doc [e|]]; simpl.
  { split; [exact I|discriminate]. }
  destruct (assert_string (map_get doc "type")) as [ftype [|]] eqn:Htype;
    simpl.
  - apply assert_string_ok in Htype. split.
    + destruct (json_Marshal doc) as [out [e|]]; exact I.
    + intros _ Hno. now destruct (Hno ftype).
  - split; [exact I|reflexivity].
Qed.

(** A summary that the builder returns describes the decoded document:
    the document has a string under ["type"], which the summary records
    under the same key; the summary carries the UID it was asked for,
    the name guessed from it and the GeoJSON kind; its fields hold
    nothing but ["type"] and possibly ["count"]; and the body returned
    with it is the document as [json.Marshal] writes it. *)
Theorem summary_describes_the_decoded_document (uid : string)
  (body out : list byte) (summary : EntitySummary) :
  EntitySummaryBuilder uid body = (Some summary, out, None) ->
  snd (json_Unmarshal body) = None /\
  json_Marshal (fst (json_Unmarshal body)) = (out, None) /\
  Kind summary = StandardKindGeoJSON /\
  Name summary = GuessNameFromUID uid /\
  UID summary = uid /\
  (exists ftype,
     map_get (fst (json_Unmarshal body)) "type" = Some (any_string ftype) /\
     map_get (Fields summary) "type" = Some (any_string ftype)) /\
  (forall k, k <> "type" -> k <> "count" ->
             map_get (Fields summary) k = None).
Proof.
  unfold EntitySummaryBuilder.
  destruct (json_Unmarshal body) as [doc [e|]]; simpl; [discriminate|].
  destruct (assert_string (map_get doc "type")) as [ftype [|]] eqn:Htype;
    simpl; [|discriminate].
  apply assert_string_ok in Htype.
  destruct (json_Marshal doc) as [out' [e|]]; [discriminate|].
  intros [= <- <-].
  destruct (ftype =? "FeatureCollection");
    [destruct (assert_slice (map_get doc "features")) as [features [|]]|];
    cbn -[String.eqb]; repeat split; eauto;
    intros k Ht Hc;
    repeat match goal with
      | |- context [String.eqb ?a k] =>
          destruct (String.eqb_spec a k); [congruence|]
      end; reflexivity.
Qed.

(** The summary counts features for feature collections only: it holds
    a ["count"] exactly when the document's type is
    ["FeatureCollection"] and its ["features"] is an array, and the
    count is the length of that array. *)
Theorem count_is_the_number_of_features (uid : string)
  (body out : list byte) (summary : EntitySummary) (v : any float64) :
  EntitySummaryBuilder uid body = (Some summary, out, None) ->
  map_get (Fields summary) "count" = Some v
  <->
  exists features,
    map_get (fst (json_Unmarshal body)) "type"
    = Some (any_string "FeatureCollection") /\
    map_get (fst (json_Unmarshal body)) "features"
    = Some (any_slice features) /\
    v = any_int (Z.of_nat (length features)).
Proof.
  unfold EntitySummaryBuilder.
  destruct (json_Unmarshal body) as [doc [e|]]; simpl; [discriminate|].
  destruct (assert_string (map_get doc "type")) as [ftype [|]] eqn:Htype;
    simpl; [|discriminate].
  apply assert_string_ok in Htype.
  destruct (json_Marshal doc) as [out' [e|]]; [discriminate|].
  intros [= <- <-].
  destruct (String.eqb_spec ftype "FeatureCollection") as [->|Hne].
  - destruct (assert_slice (map_get doc "features")) as [features [|]]
      eqn:Hf; simpl.
    + apply assert_slice_ok in Hf. split.
      * intros [= <-]. now exists features.
      * intros (l & _ & Hl & ->). congruence.
    + split; [discriminate|].
      intros (l & _ & Hl & _). apply assert_slice_ok in Hl.
      rewrite Hl in Hf. discriminate Hf.
  - simpl. split; [discriminate|].
    intros (l & Ht & _). congruence.
Qed.

End Facts.

Section Samples.

Import geojson.Example.

#[local] Existing Instance sample_environment.

(** The summary of the sample feature collection is of the GeoJSON
    kind. *)
Lemma sample_summary_kind :
  Kind feature_collection_summary = StandardKindGeoJSON.
Proof.
  exact (proj1 (proj2 (proj2 (summary_describes_the_decoded_document
                                "places" [] [x7b; x7d]
                                feature_collection_summary eq_refl)))).
Defined.

(** The summary of the sample feature collection counts its three
    features. *)
Lemma sample_summary_count :
  map_get (Fields feature_collection_summary) "count" = Some (any_int 3).
Proof.
  apply (proj2 (count_is_the_number_of_features
                  "places" [] [x7b; x7d] feature_collection_summary
                  (any_int 3) eq_refl)).
  exists [any_map []; any_map []; any_map []]. repeat split.
Defined.

End Samples.

End geojson_facts.

Module dashlist_facts.
Import dashlist.

Section Facts.

Context {environment : Environment}.

Lemma handler_leaves_no_folderId (panel : Panel) (migrated : Options) :
  run_promise (dashlistMigrationHandler panel) = Resolved migrated ->
  folderId migrated = undefined.
Proof.
  unfold dashlistMigrationHandler.
  destruct (folderId _) as [| |id] eqn:Hid; simpl.
  - intros [= <-]. exact Hid.
  - destruct (getFolderByID null); [|discriminate]. now intros [= <-].
  - destruct (getFolderByID (value id)); [|discriminate]. now intros [= <-].
Qed.

Lemma handler_panel (panel : Panel) :
  run_panel (dashlistMigrationHandler panel)
  = if parseFloat_below_6_3 (or_default (pluginVersion panel) "6.1")
    then delete_oldProps panel
    else panel.
Proof.
  unfold dashlistMigrationHandler.
  destruct (folderId _) as [| |id]; simpl;
    try destruct (getFolderByID _); reflexivity.
Qed.

Lemma nullish_twice {A : Type} (a b : js A) :
  nullish (nullish a b) b = nullish a b.
Proof. destruct a, b; reflexivity. Qed.

Lemma nullish_undefined {A : Type} (a : js A) :
  a <> null -> nullish a undefined = a.
Proof. destruct a; [reflexivity|congruence|reflexivity]. Qed.

(** Migrated options never carry a [folderId].  The folder id that
    counts is the one of the options unless that is [null] or
    [undefined], else the legacy one.  When it is [undefined] the
    handler sends no request, resolves, and keeps the [folderUID] of the
    options.  When it is anything else, a saved [null] included, the
    handler sends exactly one request, for that id, and settles as the
    request does: it rejects with the backend's reason, or resolves with
    the [uid] of the folder as [folderUID], replacing the one of the
    options. *)
Theorem migration_replaces_folderId_by_folderUID (panel : Panel) :
  (forall migrated,
     run_promise (dashlistMigrationHandler panel) = Resolved migrated ->
     folderId migrated = undefined) /\
  (merged_folderId panel = undefined ->
   run_requests (dashlistMigrationHandler panel) = [] /\
   exists migrated,
     run_promise (dashlistMigrationHandler panel) = Resolved migrated /\
     folderUID migrated = folderUID (options panel)) /\
  (merged_folderId panel <> undefined ->
   run_requests (dashlistMigrationHandler panel) = [merged_folderId panel] /\
   match getFolderByID (merged_folderId panel) with
   | Rejected r =>
       run_promise (dashlistMigrationHandler panel) = Rejected r
   | Resolved folderResp =>
       exists migrated,
         run_promise (dashlistMigrationHandler panel) = Resolved migrated /\
         folderUID migrated = value (FolderDTO_uid folderResp)
   end).
Proof.
  split; [exact (handler_leaves_no_folderId panel)|].
  unfold dashlistMigrationHandler, merged_folderId. simpl.
  destruct (nullish (folderId (options panel)) (panel_folderId panel))
    as [| |id]; (split; [intros H|intros H]); try congruence.
  - split; [reflexivity|]. eexists. split; reflexivity.
  - destruct (getFolderByID null) as [folderResp|r]; simpl;
      (split; [reflexivity|]); [eexists; split; reflexivity|reflexivity].
  - destruct (getFolderByID (value id)) as [folderResp|r]; simpl;
      (split; [reflexivity|]); [eexists; split; reflexivity|reflexivity].
Qed.

(** Legacy properties only fill the options that are [null] or
    [undefined]: two panels with the same options, all eight of them
    holding a value, send the same request and migrate to the same
    result whatever their legacy properties and plugin versions are. *)
Theorem defined_options_shadow_legacy_properties (panel panel' : Panel) :
  options panel = options panel' ->
  defined (showStarred (options panel)) ->
  defined (showRecentlyViewed (options panel)) ->
  defined (showSearch (options panel)) ->
  defined (showHeadings (options panel)) ->
  defined (maxItems (options panel)) ->
  defined (query (options panel)) ->
  defined (folderId (options panel)) ->
  defined (tags (options panel)) ->
  run_promise (dashlistMigrationHandler panel)
  = run_promise (dashlistMigrationHandler panel') /\
  run_requests (dashlistMigrationHandler panel)
  = run_requests (dashlistMigrationHandler panel').
Proof.
  intros Heq [s Hs] [r Hr] [se Hse] [h Hh] [m Hm] [q Hq] [f Hf] [t Ht].
  unfold dashlistMigrationHandler. rewrite <- Heq.
  rewrite Hs, Hr, Hse, Hh, Hm, Hq, Hf, Ht. simpl.
  destruct (getFolderByID (value f)); split; reflexivity.
Qed.


(** After a migration of a panel whose version parses below 6.3 that
    resolved to options holding no [null] among the six plain options,
    a second migration of the panel with the migrated options stored
    sends no folder request, resolves to the same options and leaves the
    panel as it is. *)
Theorem migration_is_idempotent_below_6_3 (panel : Panel)
  (migrated : Options) :
  parseFloat_below_6_3 (or_default (pluginVersion panel) "6.1") = true ->
  run_promise (dashlistMigrationHandler panel) = Resolved migrated ->
  showStarred migrated <> null ->
  showRecentlyViewed migrated <> null ->
  showSearch migrated <> null ->
  showHeadings migrated <> null ->
  maxItems migrated <> null ->
  query migrated <> null ->
  dashlistMigrationHandler
    (with_options (run_panel (dashlistMigrationHandler panel)) migrated)
  = {| run_panel :=
         with_options (run_panel (dashlistMigrationHandler panel)) migrated;
       run_requests := [];
       run_promise := Resolved migrated |}.
Proof.
  intros Hold Hmig Hs Hr Hse Hh Hm Hq.
  rewrite (handler_panel panel), Hold.
  pose proof (handler_leaves_no_folderId panel migrated Hmig) as Hfolder.
  assert (Htags : nullish (tags migrated) (panel_tags panel) = tags migrated).
  { clear - Hmig. revert Hmig. unfold dashlistMigrationHandler.
    destruct (folderId _) as [| |id]; simpl.
    - intros [= <-]. simpl. apply nullish_twice.
    - destruct (getFolderByID null); simpl; [|discriminate].
      intros [= <-]. simpl. apply nullish_twice.
    - destruct (getFolderByID (value id)); simpl; [|discriminate].
      intros [= <-]. simpl. apply nullish_twice. }
  unfold dashlistMigrationHandler, with_options, delete_oldProps. simpl.
  rewrite Hold, Hfolder, Htags.
  rewrite (nullish_undefined _ Hs), (nullish_undefined _ Hr),
    (nullish_undefined _ Hse), (nullish_undefined _ Hh),
    (nullish_undefined _ Hm), (nullish_undefined _ Hq). simpl.
  destruct migrated as [s r se h m q f u t o]. simpl in *. subst f.
  reflexivity.
Qed.

End Facts.

Section Samples.

Import dashlist.Example.

#[local] Existing Instance sample_environment.

(** A legacy folder id saved as [null] is requested from the backend,
    which rejects it. *)
Lemma null_folder_id_is_requested :
  run_requests (dashlistMigrationHandler null_folder_panel) = [null] /\
  run_promise (dashlistMigrationHandler null_folder_panel)
  = Rejected "not found".
Proof.
  exact (proj2 (proj2 (migration_replaces_folderId_by_folderUID
                         null_folder_panel))
           ltac:(discriminate)).
Defined.

(** The legacy properties of [mixed_panel] change nothing of what its
    fully set options migrate to. *)
Lemma mixed_panel_migrates_as_clean_panel :
  run_promise (dashlistMigrationHandler mixed_panel)
  = run_promise (dashlistMigrationHandler clean_panel) /\
  run_requests (dashlistMigrationHandler mixed_panel)
  = run_requests (dashlistMigrationHandler clean_panel).
Proof.
  apply defined_options_shadow_legacy_properties;
    [reflexivity|eexists; reflexivity..].
Defined.

(** [angular_panel], without a version, migrates once and for all. *)
Lemma angular_panel_migrates_once :
  dashlistMigrationHandler
    (with_options (run_panel (dashlistMigrationHandler angular_panel))
       angular_panel_migrated)
  = {| run_panel :=
         with_options (run_panel (dashlistMigrationHandler angular_panel))
           angular_panel_migrated;
       run_requests := [];
       run_promise := Resolved angular_panel_migrated |}.
Proof.
  apply migration_is_idempotent_below_6_3;
    [reflexivity|reflexivity|discriminate..].
Defined.

End Samples.

End dashlist_facts.

Module QueryOptionGroup_facts.
Import QueryOptionGroup.

Section Facts.

Context {environment : Environment}.

(** The stats paragraph is left out exactly for an undefined, null or
    empty [queryStats].  A non-empty string is shown as it is, whatever
    the byte formatter does.  A stats object always gets the sentence:
    with a byte count that is falsy (zero) the amount is empty, and
    otherwise it is the formatted text followed by its suffix. *)
Theorem stats_paragraph (title : string) (collapsedInfo : list string)
  (isOpen : bool) :
  (forall queryStats,
     view_stats (render title collapsedInfo queryStats isOpen) = None
     <-> queryStats = stats_undefined \/ queryStats = stats_null \/
         queryStats = stats_string "") /\
  (forall s,
     s <> "" ->
     view_stats (render title collapsedInfo (stats_string s) isOpen)
     = Some s) /\
  (forall stats,
     view_stats (render title collapsedInfo (stats_object stats) isOpen)
     = Some ("This query will process approximately "
             ++ (if truthy_number (bytes stats)
                 then text_plus_suffix (format_bytes (bytes stats))
                 else "")
             ++ ".")).
Proof.
  split; [|split].
  - intros [| |s|stats]; simpl.
    + split; auto.
    + split; auto.
    + destruct (String.eqb_spec s "") as [->|Hne]; simpl.
      * split; auto.
      * split; [discriminate|]. intros [H|[H|H]]; congruence.
    + split; [discriminate|]. intros [H|[H|H]]; discriminate.
  - intros s Hs. simpl. apply String.eqb_neq in Hs. now rewrite Hs.
  - intros stats. simpl. unfold convertUnits.
    now destruct (truthy_number (bytes stats)).
Qed.

End Facts.

End QueryOptionGroup_facts.
